(** * Alt-Scanner: scoring, structural features, signal logging and
    outcome labeling.

    Shallow embedding of [src/analyze_alerts.py] ([label_one_alert]),
    [src/src/scoring.py] ([score_signal]) and the parts of
    [src/src/scanner.py] ([log_signal], the structural feature block and
    the level block of [analyze_symbol]).

    Prices (Python floats) are modelled as rationals [Q]: comparisons,
    [abs] and subtraction are exact there; NaN is not modelled.
    Python dictionaries are [gmap string pyval]. *)

From Stdlib Require Import QArith Qabs Lqa Ascii.
Set Warnings "-register-all".
From stdpp Require Import base gmap strings list pretty.

Open Scope Q_scope.

(* ------------------------------------------------------------------ *)
(** ** Python values *)

(** The JSON-like Python values that flow through alert records. *)
Inductive pyval :=
  | PNone
  | PBool (b : bool)
  | PInt (z : Z)
  | PFloat (q : Q)
  | PStr (s : string)
  | PList (l : list pyval).

(** A Python dictionary with string keys. *)
Abbreviation pydict := (gmap string pyval).

(** [d.get(k)]: [None] when the key is absent. *)
Definition get (d : pydict) (k : string) : pyval :=
  match d !! k with Some v => v | None => PNone end.

(** [d.get(k, dflt)]. *)
Definition get_or (d : pydict) (k : string) (dflt : pyval) : pyval :=
  match d !! k with Some v => v | None => dflt end.

(** Python truthiness, [bool(v)]. *)
Definition truthy (v : pyval) : bool :=
  match v with
  | PNone => false
  | PBool b => b
  | PInt z => negb (Z.eqb z 0)
  | PFloat q => negb (Qeq_bool q 0)
  | PStr s => negb (String.eqb s "")
  | PList l => negb (bool_decide (l = []))
  end.

(** [a or b]. *)
Definition py_or (a b : pyval) : pyval := if truthy a then a else b.

(** Strict comparison on floats, [x < y]. *)
Definition Qltb (x y : Q) : bool := negb (Qle_bool y x).

(** The characters of a string, each as a one-character string
    (what iterating over a Python [str] yields). *)
Fixpoint str_chars (s : string) : list pyval :=
  match s with
  | EmptyString => []
  | String c rest => PStr (String c EmptyString) :: str_chars rest
  end.

(** [s.replace("Z", "+00:00")]. *)
Fixpoint replace_Z (s : string) : string :=
  match s with
  | EmptyString => EmptyString
  | String c rest =>
      if Ascii.eqb c "Z"%char then String.append "+00:00" (replace_Z rest)
      else String c (replace_Z rest)
  end.

Section Conversions.
  (** [float(s)] on a string: the Python parser, [None] when it raises. *)
Variable parse_float_str : string -> option Q.

  (** [float(v)]; [None] when Python raises ([float(None)],
      [float([..])], an unparsable string). *)
Definition py_float (v : pyval) : option Q :=
    match v with
    | PNone => None
    | PBool b => Some (if b then 1 else 0)
    | PInt z => Some (inject_Z z)
    | PFloat q => Some q
    | PStr s => parse_float_str s
    | PList _ => None
    end.

  (** [for x in v]: the items of an iterable, [None] (TypeError) for
      values that are not iterable. *)
Definition py_iter (v : pyval) : option (list pyval) :=
    match v with
    | PList l => Some l
    | PStr s => Some (str_chars s)
    | _ => None
    end.

  (** [[float(x) for x in v]]. *)
Definition py_float_list (v : pyval) : option (list Q) :=
    l ← py_iter v; mapM py_float l.
End Conversions.

(* ------------------------------------------------------------------ *)
(** ** Outcome labeling ([analyze_alerts.py]) *)

(** [LOOKAHEAD_BARS = 48]. *)
Definition LOOKAHEAD_BARS : nat := 48.

(** One row of the frame returned by [fetch_future_klines]. *)
Record kline := mk_kline {
  k_high : Q;
  k_low : Q;
  k_close : Q
}.

(** The local variable [first_event]: "NONE", "SL" or "TP{i}". *)
Inductive event :=
  | EvNone
  | EvSL
  | EvTP (i : nat).

(** The inner [for i, hit in enumerate(tp_hits, start=1)] loop: the first
    hit sets [first_event] to [TP{i}], raises [max_tp_idx] to [i] when
    [i > max_tp_idx], and breaks. *)
Fixpoint scan_tp_hits (hits : list bool) (i : nat) (fe : event) (mx : nat)
    : event * nat :=
  match hits with
  | [] => (fe, mx)
  | h :: hs =>
      if h then (EvTP i, if Nat.ltb mx i then i else mx)
      else scan_tp_hits hs (S i) fe mx
  end.

(** [sl_hit] for one candle. *)
Definition sl_hit_of (is_buy : bool) (sl : Q) (r : kline) : bool :=
  if is_buy then Qle_bool (k_low r) sl else Qle_bool sl (k_high r).

(** [tp_hits] for one candle. *)
Definition tp_hits_of (is_buy : bool) (tps : list Q) (r : kline) : list bool :=
  if is_buy then map (fun tp => Qle_bool tp (k_high r)) tps
  else map (fun tp => Qle_bool (k_low r) tp) tps.

(** The candle loop [for _, row in df.iterrows()], from the state
    [(first_event, max_tp_idx)]; a stop-loss touch breaks out of it. *)
Fixpoint scan_rows (is_buy : bool) (sl : Q) (tps : list Q) (rows : list kline)
    (fe : event) (mx : nat) : event * nat :=
  match rows with
  | [] => (fe, mx)
  | r :: rest =>
      if sl_hit_of is_buy sl r then (EvSL, mx)
      else
        let '(fe', mx') := scan_tp_hits (tp_hits_of is_buy tps r) 1 fe mx in
        scan_rows is_buy sl tps rest fe' mx'
  end.

(** The dictionary [out] returned by [label_one_alert]: a copy of the
    alert with the outcome keys set.  The keys [hit_tp{i}] are kept in
    [hit_tp] (index [i] to value); [error] is the optional [error] key. *)
Record label_out := mk_out {
  out_alert : pydict;
  hit_sl : bool;
  hit_tp : gmap nat bool;
  first_event : event;
  max_tp_reached : nat;
  rr_at_max_tp : Q;
  out_error : option string
}.

(** [hit_tp1 .. hit_tp4] all [False]. *)
Definition hit_tp_init : gmap nat bool :=
  <[1%nat := false]> (<[2%nat := false]> (<[3%nat := false]> (<[4%nat := false]> ∅))).

(** The dictionary before any evaluation: every outcome field at its
    default. *)
Definition out_default (alert : pydict) : label_out :=
  mk_out alert false hit_tp_init EvNone 0 0 None.

Definition is_none (v : pyval) : bool :=
  match v with PNone => true | _ => false end.

Definition side_ok (v : pyval) : bool :=
  match v with
  | PStr s => String.eqb s "BUY" || String.eqb s "SELL"
  | _ => false
  end.

Definition side_is_buy (v : pyval) : bool :=
  match v with PStr s => String.eqb s "BUY" | _ => false end.

Section Labeling.
  (** The time type of [datetime] values. *)
Variable time : Type.
  (** [datetime.fromisoformat(s).astimezone(timezone.utc)]; [None] when
      it raises. *)
Variable fromisoformat_utc : string -> option time.
  (** [t + timedelta(minutes=5)]. *)
Variable plus_5min : time -> time.
  (** [fetch_future_klines(symbol, start_dt, bars)]: the frame's rows or
      the message of the exception it raises. *)
Variable fetch_future_klines : pyval -> time -> nat -> string + list kline.
  (** [float(s)] on strings. *)
Variable parse_float_str : string -> option Q.

  (** After the candle loop: flags, [max_tp_reached] and [rr_at_max_tp]
      (lines 156-181). *)
Definition finish (out : label_out) (entry sl : Q) (tp_levels : list Q)
      (fe : event) (mx : nat) : option label_out :=
    let hsl := match fe with EvSL => true | _ => false end in
    let mx := if hsl then 0%nat else mx in
    let htp := match fe with
               | EvTP i => <[i := true]> (hit_tp out)
               | _ => hit_tp out
               end in
    let out := mk_out (out_alert out) hsl htp (first_event out)
                 (max_tp_reached out) (rr_at_max_tp out) (out_error out) in
    if Nat.eqb mx 0 && negb hsl then
      Some (mk_out (out_alert out) (hit_sl out) (hit_tp out) EvNone 0 0
              (out_error out))
    else
      let out := mk_out (out_alert out) (hit_sl out) (hit_tp out) fe mx
                   (rr_at_max_tp out) (out_error out) in
      let risk := Qabs (entry - sl) in
      if Qltb 0 risk && Nat.ltb 0 mx then
        best_tp ← tp_levels !! (mx - 1)%nat;
        let reward := Qabs (best_tp - entry) in
        Some (mk_out (out_alert out) (hit_sl out) (hit_tp out)
                (first_event out) (max_tp_reached out) (reward / risk)
                (out_error out))
      else if Qltb 0 risk && hit_sl out then
        Some (mk_out (out_alert out) (hit_sl out) (hit_tp out)
                (first_event out) (max_tp_reached out) (-1)
                (out_error out))
      else Some out.

  (** [label_one_alert(alert)]; [None] when it raises. *)
Definition label_one_alert (alert : pydict) : option label_out :=
    let ts_str := get alert "timestamp" in
    let symbol := get alert "symbol" in
    let side := get alert "side" in
    entry ← py_float parse_float_str (py_or (get alert "entry") (PFloat 0));
    let sl := get alert "sl" in
    let tps := py_or (get alert "tps") (PList []) in
    let out := out_default alert in
    if negb (truthy ts_str) || negb (truthy symbol) || negb (side_ok side)
       || Qeq_bool entry 0 || is_none sl then Some out
    else
      match ts_str with
      | PStr s =>
          match fromisoformat_utc (replace_Z s) with
          | None => Some out
          | Some signal_time =>
              sl ← py_float parse_float_str sl;
              tp_levels ← py_float_list parse_float_str tps;
              let start_dt := plus_5min signal_time in
              match fetch_future_klines symbol start_dt LOOKAHEAD_BARS with
              | inl e =>
                  Some (mk_out alert false hit_tp_init EvNone 0 0
                          (Some (String.append "kline_fetch_error: " e)))
              | inr df =>
                  let '(fe, mx) :=
                    scan_rows (side_is_buy side) sl tp_levels df EvNone 0 in
                  finish out entry sl tp_levels fe mx
              end
          end
      (* a non-string timestamp: [.replace] raises inside the [try] *)
      | _ => Some out
      end.

  (** The alert passes every guard of [label_one_alert]: a non-empty
      timestamp string that parses, a truthy symbol, side "BUY" or "SELL",
      a non-zero entry, a stop-loss and take-profits that convert to
      floats, and a successful kline fetch returning [rows]. *)
Definition evaluates (alert : pydict) (is_buy : bool) (entry sl : Q)
      (tp_levels : list Q) (rows : list kline) : Prop :=
    exists s t,
      get alert "timestamp" = PStr s /\ s <> ""%string /\
      fromisoformat_utc (replace_Z s) = Some t /\
      truthy (get alert "symbol") = true /\
      side_ok (get alert "side") = true /\
      side_is_buy (get alert "side") = is_buy /\
      py_float parse_float_str (py_or (get alert "entry") (PFloat 0)) = Some entry /\
      ~ entry == 0 /\
      py_float parse_float_str (get alert "sl") = Some sl /\
      py_float_list parse_float_str (py_or (get alert "tps") (PList [])) = Some tp_levels /\
      fetch_future_klines (get alert "symbol") (plus_5min t) LOOKAHEAD_BARS = inr rows.
End Labeling.

(* ------------------------------------------------------------------ *)
(** ** Scoring engine ([src/src/scoring.py]) *)

(** The [features] dictionary passed to [score_signal]: the flag entries
    ([ema_align], [macd_pos], ...) with their Python values, the integer
    [ctx_adj] entry and the [tags] entry ([None] when the key is
    absent). *)
Record features := mk_features {
  feat : pydict;
  feat_ctx_adj : option Z;
  feat_tags : option (list string)
}.

(** The two weight tables of the configuration;
    [config.get("weights", {}) or {}] is [∅] when the key is absent,
    null or empty. *)
Record config := mk_config {
  cfg_weights : option (gmap string Z);
  cfg_mtf_weights : option (gmap string Z)
}.

Record score_result := mk_score {
  final_score : Z;
  base_score : Z;
  mtf_score : Z;
  ctx_adj : Z;
  tags : list string
}.

(** [weights.get(k, 0)]. *)
Definition wget (w : gmap string Z) (k : string) : Z :=
  match w !! k with Some v => v | None => 0%Z end.

(** [if features.get(k): acc += weights.get(wk, 0)]. *)
Definition add_if (f : pydict) (k : string) (w : gmap string Z) (wk : string)
    (acc : Z) : Z :=
  if truthy (get f k) then (acc + wget w wk)%Z else acc.

Definition score_signal (features : features) (config : config) : score_result :=
  let weights := match cfg_weights config with Some w => w | None => ∅ end in
  let mtf_weights := match cfg_mtf_weights config with Some w => w | None => ∅ end in
  let f := feat features in
  let base := 0%Z in
  (* core trend / momentum / volume *)
  let base := add_if f "ema_align" weights "ema_align" base in
  let base := add_if f "macd_pos" weights "macd" base in
  let base := add_if f "vol_spike" weights "vol_spike" base in
  (* structure / S-R behaviour *)
  let base := add_if f "breakout" weights "breakout" base in
  let base := add_if f "retest" weights "retest" base in
  let base := add_if f "bounce_support" weights "retest" base in
  let base := add_if f "support_retest" weights "retest" base in
  let base := add_if f "fall_resistance" weights "retest" base in
  (* multi-timeframe confirmations *)
  let mtf := add_if f "mtf_ema_align" mtf_weights "ema" 0%Z in
  (* context adjustment *)
  let ctx := match feat_ctx_adj features with Some c => c | None => 0%Z end in
  let final := (base + mtf + ctx)%Z in
  mk_score final base mtf ctx
    (match feat_tags features with Some t => t | None => [] end).

(** The bearish keys of the spec and a [side] entry. *)
Definition bearish_keys : list string :=
  ["ema_down"; "macd_neg"; "breakdown"; "retest_short"; "side"].

(* ------------------------------------------------------------------ *)
(** ** Persisted signal line ([log_signal] in [src/src/scanner.py]) *)

(** JSON values written by [json.dumps]. *)
Inductive jval :=
  | JNull
  | JBool (b : bool)
  | JInt (z : Z)
  | JFloat (q : Q)
  | JStr (s : string)
  | JList (l : list jval).

(** The keys of the [safe] dictionary, in insertion order. *)
Definition log_keys : list string :=
  ["timestamp"; "symbol"; "final_score"; "base_score"; "side"; "tags";
   "ema_align"; "macd_pos"; "vol_spike"; "tf15_confirm"; "swing_confirm";
   "entry"; "sl"; "tp1"; "tp2"; "btc_ctx"; "breakout"; "retest";
   "resistance"; "support"].

Definition log_float_keys : list string :=
  ["entry"; "sl"; "tp1"; "tp2"; "resistance"; "support"].

Section Logging.
  (** [str(v)]. *)
Variable py_str : pyval -> string.
  (** [float(s)] and [int(s)] on strings; [None] when they raise. *)
Variable parse_float_str : string -> option Q.
Variable parse_int_str : string -> option Z.

  (** [int(v)]; floats truncate toward zero. *)
Definition py_int (v : pyval) : option Z :=
    match v with
    | PNone => None
    | PBool b => Some (if b then 1%Z else 0%Z)
    | PInt z => Some z
    | PFloat q => Some (Z.quot (Qnum q) (Zpos (Qden q)))
    | PStr s => parse_int_str s
    | PList _ => None
    end.

  (** [float(data.get(k, 0)) if data.get(k) is not None else None]. *)
Definition opt_float (data : pydict) (k : string) : option jval :=
    match get data k with
    | PNone => Some JNull
    | v => q ← py_float parse_float_str v; Some (JFloat q)
    end.

  (** [bool(data.get(k, False))]. *)
Definition flag (data : pydict) (k : string) : jval :=
    JBool (truthy (get_or data k (PBool false))).

  (** The [safe] dictionary of [log_signal], as the JSON object written
      on one line; [None] when building it raises. *)
Definition log_signal (data : pydict) : option (list (string * jval)) :=
    final_score ← py_int (get_or data "final_score" (PInt 0));
    base_score ← py_int (get_or data "base_score" (PInt 0));
    tags ← py_iter (get_or data "tags" (PList []));
    entry ← opt_float data "entry";
    sl ← opt_float data "sl";
    tp1 ← opt_float data "tp1";
    tp2 ← opt_float data "tp2";
    btc_ctx ← py_int (get_or data "btc_ctx" (PInt 0));
    resistance ← opt_float data "resistance";
    support ← opt_float data "support";
    Some [("timestamp", JStr (py_str (get data "timestamp")));
          ("symbol", JStr (py_str (get data "symbol")));
          ("final_score", JInt final_score);
          ("base_score", JInt base_score);
          ("side", JStr (py_str (get_or data "side" (PStr "NONE"))));
          ("tags", JList (map (fun t => JStr (py_str t)) tags));
          ("ema_align", flag data "ema_align");
          ("macd_pos", flag data "macd_pos");
          ("vol_spike", flag data "vol_spike");
          ("tf15_confirm", flag data "tf15_confirm");
          ("swing_confirm", flag data "swing_confirm");
          ("entry", entry); ("sl", sl); ("tp1", tp1); ("tp2", tp2);
          ("btc_ctx", JInt btc_ctx);
          ("breakout", flag data "breakout");
          ("retest", flag data "retest");
          ("resistance", resistance); ("support", support)].
End Logging.

(** The JSON type each key of the line is written with. *)
Definition log_typed (k : string) (v : jval) : bool :=
  match v with
  | JStr _ => bool_decide (k ∈ ["timestamp"; "symbol"; "side"])
  | JInt _ => bool_decide (k ∈ ["final_score"; "base_score"; "btc_ctx"])
  | JBool _ => bool_decide (k ∈ ["ema_align"; "macd_pos"; "vol_spike";
                 "tf15_confirm"; "swing_confirm"; "breakout"; "retest"])
  | JList l => bool_decide (k = "tags") &&
               forallb (fun x => match x with JStr _ => true | _ => false end) l
  | JFloat _ | JNull => bool_decide (k ∈ log_float_keys)
  end.

(* ------------------------------------------------------------------ *)
(** ** Structural features and levels ([analyze_symbol]) *)

(** As shipped, [src/src/scanner.py] does not parse: line 210
    ([window = 20]) is indented one level less than the [try] block around
    it.  The embedding follows the evident intent, [window = 20] inside
    that block. *)

(** One primary-timeframe candle of [fetch_klines]. *)
Record candle := mk_candle {
  c_open : Q;
  c_high : Q;
  c_low : Q;
  c_close : Q;
  c_volume : Q
}.

(** The last [n] items of a list ([s.iloc[-n:]]). *)
Definition lastn {A} (n : nat) (l : list A) : list A :=
  drop (length l - n) l.

(** [max(a, b)] on floats. *)
Definition qmax (a b : Q) : Q := if Qle_bool a b then b else a.
Definition qmin (a b : Q) : Q := if Qle_bool a b then a else b.

(** [s.max()] and [s.min()]; [None] on an empty series. *)
Definition series_max (l : list Q) : option Q :=
  match l with [] => None | x :: xs => Some (fold_left qmax xs x) end.
Definition series_min (l : list Q) : option Q :=
  match l with [] => None | x :: xs => Some (fold_left qmin xs x) end.

(** The true range of [atr]: [high - low] on the first candle (the shifted
    close is NaN and [max(axis=1)] skips it), the maximum of [high - low],
    [|high - prev close|] and [|low - prev close|] afterwards. *)
Fixpoint true_ranges_from (prev_close : Q) (cs : list candle) : list Q :=
  match cs with
  | [] => []
  | c :: rest =>
      qmax (qmax (c_high c - c_low c) (Qabs (c_high c - prev_close)))
           (Qabs (c_low c - prev_close))
      :: true_ranges_from (c_close c) rest
  end.

Definition true_ranges (cs : list candle) : list Q :=
  match cs with
  | [] => []
  | c :: rest => (c_high c - c_low c) :: true_ranges_from (c_close c) rest
  end.

(** [tr.rolling(length, min_periods=1).mean()] at the last candle. *)
Definition atr_last (cs : list candle) (len : nat) : Q :=
  let w := lastn len (true_ranges cs) in
  fold_right Qplus 0 w / inject_Z (Z.of_nat (length w)).

(** [window = 20]. *)
Definition window : nat := 20.

Record structure := mk_structure {
  resistance : Q;
  support : Q;
  breakout : bool;
  bounce_from_support : bool;
  support_retest : bool;
  fall_from_resistance : bool;
  retest : bool
}.

(** Support/resistance and the breakout, bounce, support-retest,
    rejection and retest flags (lines 201-275); [None] when an [iloc]
    raises. *)
Definition detect_structure (candles : list candle) (min_move_pct : Q)
    : option structure :=
  last ← last candles;
  let last_atr := atr_last candles 14 in
  let last_close := c_close last in
  let last_low := c_low last in
  let last_high := c_high last in
  let n := length candles in
  let before := take (n - 1) candles in
  resistance ← (if Nat.ltb (window + 1) n
                then series_max (map c_high (lastn window before))
                else series_max (map c_high candles));
  support ← (if Nat.ltb (window + 1) n
             then series_min (map c_low (lastn window before))
             else series_min (map c_low candles));
  (* fresh breakout above resistance *)
  let breakout := Qltb (resistance * (1 + min_move_pct / 100)) last_close in
  (* bounce from support *)
  let support_zone_high := support + last_atr * (1#2) in
  let bounce_from_support :=
    Qle_bool last_low support_zone_high && Qltb support last_close
    && negb breakout in
  (* validated support retest *)
  let recent := lastn 5 before in
  let had_recent_bounce :=
    existsb (fun c => Qle_bool (c_low c) support_zone_high
                      && Qltb support (c_close c)) recent in
  prev_candle ← (if Nat.ltb n 2 then None else candles !! (n - 2)%nat);
  let support_retest :=
    had_recent_bounce && Qle_bool last_low support_zone_high
    && Qltb support last_close && Qle_bool (c_close prev_candle) last_close
    && negb breakout in
  (* fall / rejection from resistance *)
  let resistance_zone_low := resistance - last_atr * (1#2) in
  let fall_from_resistance :=
    Qle_bool resistance_zone_low last_high && Qltb last_close resistance
    && negb breakout in
  (* simple retest *)
  let retest_zone_high := resistance + last_atr * (1#2) in
  let retest :=
    Qle_bool last_low retest_zone_high && Qle_bool resistance last_close
    && negb breakout in
  Some (mk_structure resistance support breakout bounce_from_support
          support_retest fall_from_resistance retest).

(** Side decision (lines 318-323). *)
Definition decide_side (ema_align macd_pos ema_down macd_neg : bool) : string :=
  if ema_align && macd_pos then "BUY"
  else if ema_down && macd_neg then "SELL"
  else "NONE".

Record levels := mk_levels {
  lv_entry : option Q;
  lv_sl : option Q;
  lv_tps : list Q;
  lv_tp1 : option Q;
  lv_tp2 : option Q
}.

(** The level block (lines 371-395). *)
Definition build_levels (side : string) (last_close last_atr : Q)
    (tp_multipliers : list Q) (sl_multiplier : Q) : levels :=
  let entry := last_close in
  let '(sl, tps) :=
    if String.eqb side "BUY" then
      (Some (entry - last_atr * sl_multiplier),
       map (fun m => entry + last_atr * m) tp_multipliers)
    else if String.eqb side "SELL" then
      (Some (entry + last_atr * sl_multiplier),
       map (fun m => entry - last_atr * m) tp_multipliers)
    else (None, []) in
  mk_levels (Some entry) sl tps (head tps) (tps !! 1%nat).

(** The default ladder [tp_multipliers] and [sl_multiplier]. *)
Definition default_tp_multipliers : list Q := [2; 3; 9#2; 6].
Definition default_sl_multiplier : Q := 3#2.

(** First value stored under [k] in a JSON object written as a list of
    pairs. *)
Fixpoint assoc_get (k : string) (l : list (string * jval)) : option jval :=
  match l with
  | [] => None
  | (k', v) :: rest => if String.eqb k k' then Some v else assoc_get k rest
  end.

(** The Python value of an optional float ([None] when unset). *)
Definition py_opt_float (x : option Q) : pyval :=
  match x with Some q => PFloat q | None => PNone end.

(** The [record] dictionary [analyze_symbol] passes to [log_signal]
    (lines 397-419). *)
Definition signal_record (timestamp symbol side : string)
    (final_score base_score : Z) (tags : list string)
    (ema_align macd_pos vol_spike tf15_confirm : bool) (lv : levels)
    (btc_ctx : Z) (st : structure) : pydict :=
  list_to_map
    [("timestamp", PStr timestamp); ("symbol", PStr symbol);
     ("final_score", PInt final_score); ("base_score", PInt base_score);
     ("side", PStr side); ("tags", PList (map PStr tags));
     ("ema_align", PBool ema_align); ("macd_pos", PBool macd_pos);
     ("vol_spike", PBool vol_spike); ("tf15_confirm", PBool tf15_confirm);
     ("entry", py_opt_float (lv_entry lv)); ("sl", py_opt_float (lv_sl lv));
     ("tps", PList (map PFloat (lv_tps lv))); ("btc_ctx", PInt btc_ctx);
     ("breakout", PBool (breakout st)); ("retest", PBool (retest st));
     ("bounce_support", PBool (bounce_from_support st));
     ("support_retest", PBool (support_retest st));
     ("fall_resistance", PBool (fall_from_resistance st));
     ("resistance", PFloat (resistance st)); ("support", PFloat (support st))].

(** A BUY record whose bar bounced from support. *)
Definition record_bounce : pydict :=
  signal_record "2024-01-01T00:00:00" "BTC_USDT" "BUY" 70 60
    ["EMA"; "MACD"; "BSUP"] true true false true
    (build_levels "BUY" 100 2 default_tp_multipliers default_sl_multiplier)
    0 (mk_structure 101 99 false true false false false).

(** 21 quiet candles, then a close well above their highs. *)
Definition candles_breakout : list candle :=
  repeat (mk_candle 100 101 99 100 10) 21 ++ [mk_candle 100 110 100 108 10].

(* ------------------------------------------------------------------ *)
(** ** Concrete inputs used by the examples *)

(** The spec's example alert: BUY, entry 100, stop-loss 90,
    take-profits [110; 120]. *)
Definition alert_spec : pydict :=
  list_to_map [("timestamp", PStr "2024-01-01T00:00:00Z");
               ("symbol", PStr "BTC_USDT"); ("side", PStr "BUY");
               ("entry", PInt 100); ("sl", PInt 90);
               ("tps", PList [PInt 110; PInt 120])].

(** A kline source that always answers with the given rows. *)
Definition fetch_rows (rows : list kline) : pyval -> unit -> nat -> string + list kline :=
  fun _ _ _ => inr rows.

(** [label_one_alert] with a timestamp parser that accepts every string,
    a kline source answering [rows], and a float parser for strings that
    rejects every string. *)
Definition label_with (rows : list kline) (alert : pydict) : option label_out :=
  label_one_alert unit (fun _ => Some tt) (fun t => t) (fetch_rows rows)
    (fun _ => None) alert.

(** [first_event == "SL"] after the loop. *)
Definition ev_is_sl (fe : event) : bool :=
  match fe with EvSL => true | _ => false end.

(** The [hit_tp{i}] keys after [out[f"hit_tp{first_event[2:]}"] = True]. *)
Definition hit_tp_after (fe : event) (m : gmap nat bool) : gmap nat bool :=
  match fe with EvTP i => <[i := true]> m | _ => m end.

(** The [hit_*] flags of the five fixed keys, [hit_sl] and
    [hit_tp1 .. hit_tp4]. *)
Definition hit_flags (o : label_out) : list bool :=
  [hit_sl o;
   bool_decide (hit_tp o !! 1%nat = Some true);
   bool_decide (hit_tp o !! 2%nat = Some true);
   bool_decide (hit_tp o !! 3%nat = Some true);
   bool_decide (hit_tp o !! 4%nat = Some true)].

(** Same alert with the stop-loss at the entry price (zero risk). *)
Definition alert_zero_risk : pydict :=
  list_to_map [("timestamp", PStr "2024-01-01T00:00:00Z");
               ("symbol", PStr "BTC_USDT"); ("side", PStr "BUY");
               ("entry", PInt 100); ("sl", PInt 100);
               ("tps", PList [PInt 110; PInt 120])].

(** An alert without timestamp whose entry is a list. *)
Definition alert_bad_entry : pydict :=
  {[ "entry" := PList [PInt 1] ]}.

(** A feature set carrying a SELL side and every bearish flag. *)
Definition features_sell : features :=
  mk_features
    (list_to_map [("side", PStr "SELL"); ("ema_down", PBool true);
                  ("macd_neg", PBool true); ("breakdown", PBool true);
                  ("retest_short", PBool true)])
    (Some 0%Z) None.

(** Weights for the bullish keys and for bearish-specific keys. *)
Definition config_bearish : config :=
  mk_config
    (Some (list_to_map [("ema_align", 10%Z); ("macd", 10%Z);
                        ("ema_down", 10%Z); ("macd_neg", 10%Z);
                        ("breakdown", 10%Z); ("retest_short", 10%Z)]))
    None.

(* ------------------------------------------------------------------ *)
(** ** Symbols ([analyze_alerts.py] and [mexc_client.py]) *)

(** [mexc_symbol_from_scanner(symbol)]: [symbol.replace("_", "")]. *)
Fixpoint mexc_symbol_from_scanner (symbol : string) : string :=
  match symbol with
  | EmptyString => EmptyString
  | String c rest =>
      if Ascii.eqb c "_"%char then mexc_symbol_from_scanner rest
      else String c (mexc_symbol_from_scanner rest)
  end.

(** A lowercase ASCII letter. *)
Definition is_lower (c : ascii) : bool :=
  let n := nat_of_ascii c in Nat.leb 97 n && Nat.leb n 122.

(** A character below 128. *)
Definition ascii7 (c : ascii) : bool := Nat.ltb (nat_of_ascii c) 128.

(** [str.upper()] on an ASCII character. *)
Definition ascii_upper (c : ascii) : ascii :=
  if is_lower c then ascii_of_nat (nat_of_ascii c - 32) else c.

(** [str.upper()] on an ASCII string. *)
Fixpoint py_upper (s : string) : string :=
  match s with
  | EmptyString => EmptyString
  | String c rest => String (ascii_upper c) (py_upper rest)
  end.

(** Every character of a string satisfies [p]. *)
Definition str_forallb (p : ascii -> bool) (s : string) : bool :=
  forallb p (String.list_ascii_of_string s).

(** [_symbol_to_mexc(symbol)] ([mexc_client.py]):
    [symbol.replace("_", "").upper()]. *)
Definition _symbol_to_mexc (symbol : string) : string :=
  py_upper (mexc_symbol_from_scanner symbol).

(* ------------------------------------------------------------------ *)
(** ** Alert files and the labeling run ([analyze_alerts.py]) *)

(** [str.isspace()] on a character read as a code point below 256. *)
Definition py_isspace (c : ascii) : bool :=
  let n := nat_of_ascii c in
  (Nat.leb 9 n && Nat.leb n 13) || (Nat.leb 28 n && Nat.leb n 32)
  || Nat.eqb n 133 || Nat.eqb n 160.

Fixpoint lstrip_chars (l : list ascii) : list ascii :=
  match l with
  | [] => []
  | c :: rest => if py_isspace c then lstrip_chars rest else l
  end.

(** [line.strip()]. *)
Definition py_strip (s : string) : string :=
  String.string_of_list_ascii
    (rev (lstrip_chars (rev (lstrip_chars (String.list_ascii_of_string s))))).

(** The value [json.loads] returns for one line: an object (an alert
    dictionary) or any other JSON value. *)
Inductive loaded :=
  | LDict (d : pydict)
  | LOther (v : pyval).

Section AlertFiles.
(** [json.loads(line)]; [None] when it raises [JSONDecodeError]. *)
Variable json_loads : string -> option loaded.

(** [load_alerts(file_path)] on the lines of the file. *)
Fixpoint load_alerts (lines : list string) : list loaded :=
  match lines with
  | [] => []
  | line :: rest =>
      let line := py_strip line in
      if String.eqb line "" then load_alerts rest
      else match json_loads line with
           | Some a => a :: load_alerts rest
           | None => load_alerts rest
           end
  end.
End AlertFiles.

(** Universal newline translation of [open(..., "r")]: ["\r\n"] and a
    lone ["\r"] are both read as ["\n"]. *)
Fixpoint translate_newlines (l : list ascii) : list ascii :=
  match l with
  | [] => []
  | c :: r =>
      if Ascii.eqb c "013"%char then
        "010"%char :: translate_newlines
          (match r with
           | c' :: r' => if Ascii.eqb c' "010"%char then r' else r
           | [] => r
           end)
      else c :: translate_newlines r
  end.

(** [for line in f] on the translated text: each line keeps its ["\n"],
    the last one may lack it. *)
Fixpoint file_lines (l : list ascii) : list (list ascii) :=
  match l with
  | [] => []
  | c :: r =>
      if Ascii.eqb c "010"%char then [c] :: file_lines r
      else match file_lines r with
           | [] => [[c]]
           | l1 :: ls => (c :: l1) :: ls
           end
  end.

(** The lines [load_alerts] iterates over, for a file whose decoded text
    is [content]. *)
Definition read_lines (content : list ascii) : list string :=
  map String.string_of_list_ascii (file_lines (translate_newlines content)).

(** [load_alerts(file_path)] on the decoded text of the file. *)
Definition load_alerts_file (json_loads : string -> option loaded)
    (content : list ascii) : list loaded :=
  load_alerts json_loads (read_lines content).

(** [json.loads] accepting only the empty object. *)
Definition loads_empty_object (s : string) : option loaded :=
  if String.eqb s "{}" then Some (LDict ∅) else None.

(** A text with every ["\n"] written as ["\r\n"] (a file saved with
    Windows line endings). *)
Definition to_crlf (l : list ascii) : list ascii :=
  flat_map (fun c => if Ascii.eqb c "010"%char then ["013"%char; "010"%char]
                     else [c]) l.

Section LabelRun.
Variable time : Type.
Variable fromisoformat_utc : string -> option time.
Variable plus_5min : time -> time.
Variable fetch_future_klines : pyval -> time -> nat -> string + list kline.
Variable parse_float_str : string -> option Q.
Variable json_loads : string -> option loaded.

(** [label_one_alert(a)] on a loaded value: a value that is not an
    object has no [.get] and raises. *)
Definition label_loaded (a : loaded) : option label_out :=
  match a with
  | LDict d => label_one_alert time fromisoformat_utc plus_5min
                 fetch_future_klines parse_float_str d
  | LOther _ => None
  end.

(** The loop of [main]: every alert of every [alerts-*.json] file, in
    file order; [None] when one of the calls raises. *)
Definition label_all (files : list (list string)) : option (list label_out) :=
  mapM label_loaded (concat (map (load_alerts json_loads) files)).
End LabelRun.

(** A candle seen from the other side of zero: highs and lows swap. *)
Definition mirror_kline (r : kline) : kline :=
  mk_kline (- k_low r) (- k_high r) (- k_close r).

(** [json.loads] of a value written by [json.dumps]. *)
Fixpoint jval_to_py (v : jval) : pyval :=
  match v with
  | JNull => PNone
  | JBool b => PBool b
  | JInt z => PInt z
  | JFloat q => PFloat q
  | JStr s => PStr s
  | JList l => PList (map jval_to_py l)
  end.

(** The alert dictionary [load_alerts] reads back from a line written by
    [log_signal] (the last value of a key wins, as in [json.loads]). *)
Definition line_to_alert (line : list (string * jval)) : pydict :=
  list_to_map (rev (map (fun kv => (kv.1, jval_to_py kv.2)) line)).

(* ------------------------------------------------------------------ *)
(** ** Scoring inputs built by [analyze_symbol] *)

(** The feature keys [score_signal] reads. *)
Definition score_flag_keys : list string :=
  ["ema_align"; "macd_pos"; "vol_spike"; "breakout"; "retest";
   "bounce_support"; "support_retest"; "fall_resistance"; "mtf_ema_align"].

(** The [tags] list of [features_for_scoring] (lines 337-351). *)
Definition feature_tags (ema_align macd_pos vol_spike tf15_confirm : bool)
    (st : structure) : list string :=
  map fst (List.filter snd
    [("EMA", ema_align); ("MACD", macd_pos); ("VOL", vol_spike);
     ("TF15", tf15_confirm); ("BO", breakout st); ("RT", retest st);
     ("BSUP", bounce_from_support st); ("SRT", support_retest st);
     ("FRES", fall_from_resistance st)]).

(** [features_for_scoring] (lines 326-352). *)
Definition features_for_scoring (ema_align macd_pos vol_spike tf15_confirm
    swing_confirm : bool) (st : structure) (btc_ctx : Z) : features :=
  mk_features
    (list_to_map
       [("ema_align", PBool ema_align); ("macd_pos", PBool macd_pos);
        ("vol_spike", PBool vol_spike); ("mtf_ema_align", PBool tf15_confirm);
        ("swing_confirm", PBool swing_confirm);
        ("breakout", PBool (breakout st)); ("retest", PBool (retest st));
        ("bounce_support", PBool (bounce_from_support st));
        ("support_retest", PBool (support_retest st));
        ("fall_resistance", PBool (fall_from_resistance st))])
    (Some btc_ctx)
    (Some (feature_tags ema_align macd_pos vol_spike tf15_confirm st)).

(** The side decided from the last close, EMA20, EMA50 and MACD
    histogram: [ema_align], [macd_pos], [ema_down], [macd_neg]
    (lines 277-282) fed to the side decision. *)
Definition side_of_indicators (close ema20 ema50 macd_hist : Q) : string :=
  decide_side (Qltb ema20 close && Qltb ema50 ema20) (Qltb 0 macd_hist)
              (Qltb close ema20 && Qltb ema20 ema50) (Qltb macd_hist 0).

(* ------------------------------------------------------------------ *)
(** ** Indicators ([src/src/indicators.py]) *)

(** [ewm(..., adjust=False).mean()] with smoothing factor [a]: the first
    value is the first observation, then [y = (1 - a) * y_prev + a * x]. *)
Fixpoint ewm_from (a prev : Q) (xs : list Q) : list Q :=
  match xs with
  | [] => []
  | x :: rest =>
      let y := (1 - a) * prev + a * x in
      y :: ewm_from a y rest
  end.

Definition ewm_adjust_false (a : Q) (xs : list Q) : list Q :=
  match xs with
  | [] => []
  | x :: rest => x :: ewm_from a x rest
  end.

(** [ema(series, length)]: [series.ewm(span=length, adjust=False).mean()],
    smoothing factor [2 / (length + 1)]; pandas raises for [span < 1]. *)
Definition ema (series : list Q) (length : nat) : option (list Q) :=
  if Nat.ltb length 1 then None
  else Some (ewm_adjust_false (2 / inject_Z (Z.of_nat length + 1)) series).

(** [macd_hist(series)]: spans 12, 26 and 9. *)
Definition macd_hist (series : list Q) : list Q :=
  let e12 := ewm_adjust_false (2 # 13) series in
  let e26 := ewm_adjust_false (2 # 27) series in
  let macd_line := zip_with Qminus e12 e26 in
  let signal := ewm_adjust_false (2 # 10) macd_line in
  zip_with Qminus macd_line signal.

(** The trend check of [compute_tf15_confirm] and of each timeframe of
    [compute_swing_confirm], on the closes of the fetched frame:
    [close > ema20 > ema50 and macd_hist > 0] on the last candle; [None]
    when it raises. *)
Definition trend_confirm (closes : list Q) : option bool :=
  ema20 ← ema closes 20;
  ema50 ← ema closes 50;
  c ← last closes;
  e20 ← last ema20;
  e50 ← last ema50;
  h ← last (macd_hist closes);
  Some (Qltb e20 c && Qltb e50 e20 && Qltb 0 h).

Section Confirmations.
(** [fetch_klines(symbol, interval, limit)]: the closes of the frame;
    [None] when it raises. *)
Variable fetch_klines : string -> string -> nat -> option (list Q).
(** [int(s)] on strings. *)
Variable parse_int_str : string -> option Z.

(** The loop of [compute_swing_confirm] over [SWING_TFS]; [None] when it
    raises. *)
Fixpoint swing_loop (symbol : string) (swing_tfs : list string) : option bool :=
  match swing_tfs with
  | [] => Some true
  | tf :: rest =>
      candles ← fetch_klines symbol tf 50%nat;
      ok ← trend_confirm candles;
      if (ok : bool) then swing_loop symbol rest else Some false
  end.

(** [compute_swing_confirm(symbol)]: an exception gives [False]. *)
Definition compute_swing_confirm (symbol : string) (swing_tfs : list string) : bool :=
  match swing_loop symbol swing_tfs with Some b => b | None => false end.

(** [compute_btc_context()], for the configured [TF_CONFIRM],
    [ema_fast], [ema_slow] and [context] block; an exception gives 0. *)
Definition compute_btc_context (tf_confirm : string)
    (ema_fast_len ema_slow_len : nat) (ctx_cfg : pydict) : Z :=
  let r :=
    candles ← fetch_klines "BTC_USDT" tf_confirm 50%nat;
    ema_fast ← ema candles ema_fast_len;
    ema_slow ← ema candles ema_slow_len;
    c ← last candles;
    f ← last ema_fast;
    s ← last ema_slow;
    let btc_up := Qltb f c && Qltb s f in
    let btc_down := Qltb c f && Qltb f s in
    if btc_up then py_int parse_int_str (get_or ctx_cfg "btc_align" (PInt 0))
    else if btc_down then py_int parse_int_str (get_or ctx_cfg "btc_oppose" (PInt 0))
    else Some 0%Z in
  match r with Some z => z | None => 0%Z end.
End Confirmations.

(* ------------------------------------------------------------------ *)
(** ** Lemmas on the candle loop *)

(** No take-profit index below 1, and [max_tp_idx] at least the index
    recorded in [first_event]. *)
Definition tp_inv (fe : event) (mx : nat) : Prop :=
  forall i, fe = EvTP i -> (1 <= i <= mx)%nat.

Lemma scan_tp_hits_inv hits i fe mx :
  (1 <= i)%nat -> tp_inv fe mx ->
  let '(fe', mx') := scan_tp_hits hits i fe mx in tp_inv fe' mx'.
Proof.
  revert i fe mx; induction hits as [|h hs IH]; intros i fe mx Hi Hinv; simpl.
  - exact Hinv.
  - destruct h.
    + unfold tp_inv; intros j Hj. injection Hj as Hj; subst j.
      destruct (Nat.ltb mx i) eqn:E.
      * lia.
      * apply Nat.ltb_ge in E. lia.
    + apply IH; [lia | exact Hinv].
Qed.

Lemma scan_rows_inv b sl tps rows fe mx :
  tp_inv fe mx ->
  let '(fe', mx') := scan_rows b sl tps rows fe mx in tp_inv fe' mx'.
Proof.
  revert fe mx; induction rows as [|r rest IH]; intros fe mx Hinv; simpl.
  - exact Hinv.
  - destruct (sl_hit_of b sl r).
    + unfold tp_inv; intros j Hj; discriminate.
    + pose proof (scan_tp_hits_inv (tp_hits_of b tps r) 1 fe mx) as H.
      destruct (scan_tp_hits (tp_hits_of b tps r) 1 fe mx) as [fe' mx'].
      apply IH, H; [lia | exact Hinv].
Qed.

(** The loop runs through every candle that does not touch the
    stop-loss. *)
Lemma scan_rows_app b sl tps pre rest fe mx :
  Forall (fun r => sl_hit_of b sl r = false) pre ->
  scan_rows b sl tps (pre ++ rest) fe mx =
  let '(fe', mx') := scan_rows b sl tps pre fe mx in
  scan_rows b sl tps rest fe' mx'.
Proof.
  revert fe mx; induction pre as [|r pre IH]; intros fe mx Hpre; simpl.
  - reflexivity.
  - inversion Hpre as [|? ? Hr Hrest]; subst.
    rewrite Hr.
    destruct (scan_tp_hits (tp_hits_of b tps r) 1 fe mx) as [fe' mx'].
    apply IH; exact Hrest.
Qed.

(** A stop-loss touch after candles without one ends the loop with
    [first_event = "SL"]. *)
Lemma scan_rows_sl_after b sl tps pre r post fe mx :
  Forall (fun r => sl_hit_of b sl r = false) pre ->
  sl_hit_of b sl r = true ->
  fst (scan_rows b sl tps (pre ++ r :: post) fe mx) = EvSL.
Proof.
  intros Hpre Hr. rewrite scan_rows_app by exact Hpre.
  destruct (scan_rows b sl tps pre fe mx) as [fe' mx'].
  simpl. rewrite Hr. reflexivity.
Qed.

Lemma Qltb_0_Qabs_sub (e s : Q) :
  Qltb 0 (Qabs (e - s)) = negb (Qeq_bool e s).
Proof.
  unfold Qltb. f_equal.
  apply eq_true_iff_eq. rewrite Qle_bool_iff, Qeq_bool_iff.
  apply (Qabs_case (e - s) (fun x => x <= 0 <-> e == s)); intros H; split;
    intros H'; lra.
Qed.


(** What [finish] writes into the flags, [first_event] and
    [max_tp_reached], whichever risk:reward branch it takes. *)
Lemma finish_shape out entry sl tps fe mx o :
  finish out entry sl tps fe mx = Some o ->
  let mx' := if ev_is_sl fe then 0%nat else mx in
  let none := Nat.eqb mx' 0 && negb (ev_is_sl fe) in
  hit_sl o = ev_is_sl fe /\ hit_tp o = hit_tp_after fe (hit_tp out) /\
  first_event o = (if none then EvNone else fe) /\
  max_tp_reached o = (if none then 0%nat else mx') /\
  out_alert o = out_alert out /\ out_error o = out_error out.
Proof.
  intros H. unfold finish in H.
  destruct fe as [| |i]; simpl in H |- *; destruct (Nat.eqb mx 0);
  simpl in H |- *;
  repeat match type of H with
  | context [if ?c then _ else _] => destruct c
  | context [mbind _ ?x] => destruct x; simpl in H
  end;
  try discriminate H; injection H as <-; simpl; repeat split.
Qed.

Lemma finish_sl out entry sl tps mx :
  finish out entry sl tps EvSL mx =
  Some (mk_out (out_alert out) true (hit_tp out) EvSL 0
          (if Qeq_bool entry sl then rr_at_max_tp out else -1)
          (out_error out)).
Proof.
  unfold finish. cbv zeta. rewrite Qltb_0_Qabs_sub. simpl.
  destruct (Qeq_bool entry sl); reflexivity.
Qed.

Lemma hit_tp_init_not_true i : hit_tp_init !! i <> Some true.
Proof.
  unfold hit_tp_init. rewrite !lookup_insert.
  repeat case_decide; discriminate.
Qed.

Lemma hit_tp_after_true fe i :
  hit_tp_after fe hit_tp_init !! i = Some true -> fe = EvTP i.
Proof.
  destruct fe as [| |j]; simpl; intros H;
    try (exfalso; exact (hit_tp_init_not_true i H)).
  rewrite lookup_insert in H. case_decide; [subst; reflexivity|].
  exfalso; exact (hit_tp_init_not_true i H).
Qed.


(** Each [hit_*] flag that [finish] sets is the one named by
    [first_event]. *)
Lemma finish_names alert entry sl tps fe mx o :
  tp_inv fe mx ->
  finish (out_default alert) entry sl tps fe mx = Some o ->
  (hit_sl o = true -> first_event o = EvSL) /\
  (forall i, hit_tp o !! i = Some true -> first_event o = EvTP i).
Proof.
  intros Hinv H. apply finish_shape in H.
  destruct H as (Hsl & Htp & Hfe & _). simpl in Htp.
  split.
  - intros Ho. rewrite Hsl in Ho. rewrite Hfe.
    destruct fe; try discriminate Ho. reflexivity.
  - intros i Hi. rewrite Htp in Hi. apply hit_tp_after_true in Hi. subst fe.
    rewrite Hfe. simpl. specialize (Hinv i eq_refl).
    destruct (Nat.eqb mx 0) eqn:E; [apply Nat.eqb_eq in E; lia | reflexivity].
Qed.

Section LabelingProofs.
Variable time : Type.
Variable fromisoformat_utc : string -> option time.
Variable plus_5min : time -> time.
Variable fetch_future_klines : pyval -> time -> nat -> string + list kline.
Variable parse_float_str : string -> option Q.

Local Abbreviation label := (label_one_alert time fromisoformat_utc plus_5min
                 fetch_future_klines parse_float_str).
Local Abbreviation evaluates := (evaluates time fromisoformat_utc plus_5min
                 fetch_future_klines parse_float_str).


Lemma label_evaluates alert b entry sl tps rows :
    evaluates alert b entry sl tps rows ->
    label alert =
    let '(fe, mx) := scan_rows b sl tps rows EvNone 0 in
    finish (out_default alert) entry sl tps fe mx.
  Proof.
    intros (s & t & Hts & Hs & Hparse & Hsym & Hside & Hbuy & Hentry & Hne
            & Hsl & Htps & Hfetch).
    unfold label, label_one_alert.
    rewrite Hentry. cbn [mbind option_bind].
    rewrite Hts, Hsym, Hside, Hbuy.
    assert (Hs' : truthy (PStr s) = true).
    { simpl. apply String.eqb_neq in Hs. rewrite Hs. reflexivity. }
    rewrite Hs'.
    destruct (Qeq_bool entry 0) eqn:E.
    { apply Qeq_bool_iff in E. contradiction. }
    assert (Hnn : is_none (get alert "sl") = false).
    { destruct (get alert "sl"); [discriminate Hsl | reflexivity ..]. }
    rewrite Hnn. cbn -[py_float py_float_list].
    rewrite Hparse, Hsl. cbn -[py_float_list]. rewrite Htps.
    cbn. rewrite Hfetch. reflexivity.
  Qed.
  (** With a stop-loss touch in a candle preceded only by candles without
      one, the outcome is the stop-loss outcome. *)
Lemma label_sl_outcome alert b entry sl tps pre r post :
    evaluates alert b entry sl tps (pre ++ r :: post) ->
    Forall (fun r0 => sl_hit_of b sl r0 = false) pre ->
    sl_hit_of b sl r = true ->
    label alert =
    Some (mk_out alert true hit_tp_init EvSL 0
            (if Qeq_bool entry sl then 0 else -1) None).
  Proof.
    intros Hev Hpre Hr. rewrite (label_evaluates _ _ _ _ _ _ Hev).
    pose proof (scan_rows_sl_after b sl tps pre r post EvNone 0 Hpre Hr) as Hfe.
    destruct (scan_rows b sl tps (pre ++ r :: post) EvNone 0) as [fe mx].
    simpl in Hfe. subst fe. rewrite finish_sl. reflexivity.
  Qed.

  (** The flags set by [label_one_alert] are named by [first_event]. *)
Lemma label_flags_named alert out :
    label alert = Some out ->
    (hit_sl out = true -> first_event out = EvSL) /\
    (forall i, hit_tp out !! i = Some true -> first_event out = EvTP i).
  Proof.
    intros H. unfold label, label_one_alert in H.
    assert (Hdef : forall o, Some (out_default alert) = Some o ->
              (hit_sl o = true -> first_event o = EvSL) /\
              (forall i, hit_tp o !! i = Some true -> first_event o = EvTP i)).
    { intros o Ho. injection Ho as <-. simpl. split; [discriminate|].
      intros i Hi. exfalso. exact (hit_tp_init_not_true i Hi). }
    repeat match type of H with
    | context [scan_rows ?a ?b ?c ?d ?e ?f] =>
        pose proof (scan_rows_inv a b c d e f) as Hinv;
        destruct (scan_rows a b c d e f) as [fe mx];
        eapply finish_names; [apply Hinv; intros ? ?; discriminate | exact H]
    | context [if ?c then _ else _] => destruct c; [apply Hdef, H|]
    | context [mbind _ ?x] => destruct x; simpl in H; [|discriminate H]
    | context [match ?x with PNone => _ | _ => _ end] =>
        destruct x; try (apply Hdef, H)
    | context [match fromisoformat_utc ?x with None => _ | Some _ => _ end] =>
        destruct (fromisoformat_utc x); [|apply Hdef, H]
    | context [match fetch_future_klines ?a ?b ?c with inl _ => _ | inr _ => _ end] =>
        destruct (fetch_future_klines a b c);
        [injection H as <-; simpl; split; [discriminate|];
         intros i Hi; exfalso; exact (hit_tp_init_not_true i Hi)|]
    end.
  Qed.

  (** C1 (amended): for a BUY or SELL alert that passes the guards of
      [label_one_alert], if the first candle touching any level touches the
      stop-loss (low <= sl for BUY, high >= sl for SELL) together with a
      take-profit, the stop-loss is checked first and ends the scan:
      first_event = "SL", hit_sl, max_tp_reached = 0, and rr_at_max_tp is
      -1.0 when entry <> stop-loss, 0.0 when entry = stop-loss (zero risk). *)
Theorem label_sl_checked_first alert b entry sl tps pre r post :
    evaluates alert b entry sl tps (pre ++ r :: post) ->
    Forall (fun r0 => sl_hit_of b sl r0 = false /\
                      Forall (fun h => h = false) (tp_hits_of b tps r0)) pre ->
    sl_hit_of b sl r = true ->
    In true (tp_hits_of b tps r) ->
    exists out, label alert = Some out /\ first_event out = EvSL /\
      hit_sl out = true /\ max_tp_reached out = 0%nat /\
      rr_at_max_tp out = (if Qeq_bool entry sl then 0 else -1).
  Proof.
    intros Hev Hpre Hr _.
    eexists; split.
    - apply (label_sl_outcome alert b entry sl tps pre r post Hev); [|exact Hr].
      eapply Forall_impl; [exact Hpre|]. intros r0 [H _]. exact H.
    - simpl. repeat split.
  Qed.

  (** C3 (amended): the scan stops early only on a stop-loss touch and
      keeps reading candles after a take-profit touch; so when a
      take-profit is touched in an earlier candle and the stop-loss in a
      later one (no earlier stop-loss touch), the later stop-loss decides
      the result: first_event = "SL", hit_sl, max_tp_reached = 0 and no
      hit_tp flag set. *)
Theorem label_sl_after_tp alert b entry sl tps pre r post :
    evaluates alert b entry sl tps (pre ++ r :: post) ->
    Forall (fun r0 => sl_hit_of b sl r0 = false) pre ->
    Exists (fun r0 => In true (tp_hits_of b tps r0)) pre ->
    sl_hit_of b sl r = true ->
    exists out, label alert = Some out /\ first_event out = EvSL /\
      hit_sl out = true /\ max_tp_reached out = 0%nat /\
      hit_tp out = hit_tp_init.
  Proof.
    intros Hev Hpre _ Hr.
    eexists; split.
    - exact (label_sl_outcome alert b entry sl tps pre r post Hev Hpre Hr).
    - simpl. repeat split.
  Qed.

  (** C10: whatever the alert and the candles, at most one of hit_sl,
      hit_tp1 .. hit_tp4 is true, and a true flag is the one named by
      first_event. *)
Theorem label_single_hit_flag alert out :
    label alert = Some out ->
    (hit_sl out = true -> first_event out = EvSL) /\
    (forall i, hit_tp out !! i = Some true -> first_event out = EvTP i) /\
    (length (List.filter (fun h => h) (hit_flags out)) <= 1)%nat.
  Proof.
    intros H. destruct (label_flags_named alert out H) as [Hs Ht].
    split; [exact Hs|]. split; [exact Ht|].
    unfold hit_flags.
    repeat case_bool_decide; destruct (hit_sl out) eqn:Esl;
      try pose proof (Hs eq_refl) as HsE; simpl; try lia;
    exfalso;
    repeat match goal with
           | Hi : hit_tp out !! ?i = Some true |- _ => apply Ht in Hi
           end;
    congruence.
  Qed.

  (** C9 (amended): when [float(alert.get("entry") or 0.0)] does not raise,
      an alert missing its timestamp, symbol, side, entry (absent or zero)
      or stop-loss, or whose timestamp is not a string that parses, gets
      every outcome field at its default and no exception. *)
Theorem label_malformed_defaults alert entry :
    py_float parse_float_str (py_or (get alert "entry") (PFloat 0)) = Some entry ->
    truthy (get alert "timestamp") = false \/
    truthy (get alert "symbol") = false \/
    side_ok (get alert "side") = false \/
    entry == 0 \/
    get alert "sl" = PNone \/
    (exists s, get alert "timestamp" = PStr s /\
               fromisoformat_utc (replace_Z s) = None) \/
    (forall s, get alert "timestamp" <> PStr s) ->
    label alert = Some (out_default alert).
  Proof.
    intros He Hbad. unfold label, label_one_alert.
    rewrite He. cbn [mbind option_bind].
    match goal with |- (if ?c then _ else _) = _ => destruct c eqn:G end;
      [reflexivity|].
    rewrite !orb_false_iff in G.
    destruct G as ((((Gts & Gsym) & Gside) & Gent) & Gsl).
    rewrite negb_false_iff in Gts, Gsym, Gside.
    destruct Hbad as [B|[B|[B|[B|[B|[B|B]]]]]].
    - congruence.
    - congruence.
    - congruence.
    - apply Qeq_bool_iff in B. congruence.
    - rewrite B in Gsl. discriminate.
    - destruct B as (s & Hs & Hp). rewrite Hs. rewrite Hp. reflexivity.
    - destruct (get alert "timestamp") eqn:Ets; try reflexivity.
      exfalso. exact (B s eq_refl).
  Qed.
End LabelingProofs.

(* ------------------------------------------------------------------ *)
(** ** Labeling on concrete alerts *)


Ltac evaluates_concrete :=
  exists "2024-01-01T00:00:00Z"%string, tt;
  repeat match goal with
         | |- _ /\ _ => split
         | |- ~ (_ == _) => let Hq := fresh in intro Hq; vm_compute in Hq; discriminate Hq
         | |- _ <> _ => discriminate
         | |- _ => reflexivity
         end.

Lemma label_sl_checked_first_witness :
  exists out, label_with [mk_kline 115 85 100] alert_spec = Some out /\
    first_event out = EvSL /\ hit_sl out = true /\
    max_tp_reached out = 0%nat /\
    rr_at_max_tp out = (if Qeq_bool 100 90 then 0 else -1).
Proof.
  apply (label_sl_checked_first unit (fun _ => Some tt) (fun t => t)
           (fetch_rows [mk_kline 115 85 100]) (fun _ => None) alert_spec
           true 100 90 [110; 120] [] (mk_kline 115 85 100) []).
  - evaluates_concrete.
  - constructor.
  - reflexivity.
  - simpl. left. reflexivity.
Defined.

(** C1 fails when entry = stop-loss: the stop-loss outcome is reported
    but rr_at_max_tp stays 0.0, not -1.0. *)
Lemma label_sl_zero_risk_counterexample :
  exists out, label_with [mk_kline 115 85 100] alert_zero_risk = Some out /\
    first_event out = EvSL /\ hit_sl out = true /\
    max_tp_reached out = 0%nat /\ ~ (rr_at_max_tp out == -1).
Proof.
  eexists; split; [reflexivity|].
  simpl. repeat split. intro Hq. vm_compute in Hq. discriminate Hq.
Defined.

(** C2 (code_bug): the spec's example, bar 1 high 112 (TP1), bar 2 high
    125 (TP1 and TP2): the code reports max_tp_reached = 1 and
    rr_at_max_tp = 1.0, not 2 and 2.0. *)
Theorem label_spec_tp_ladder_example :
  exists out,
    label_with [mk_kline 112 95 100; mk_kline 125 105 100] alert_spec = Some out /\
    first_event out = EvTP 1 /\ max_tp_reached out = 1%nat /\
    rr_at_max_tp out == 1 /\
    hit_tp out !! 1%nat = Some true /\ hit_tp out !! 2%nat = Some false.
Proof.
  eexists; split; [reflexivity|].
  simpl. repeat split; try reflexivity.
Qed.

Lemma label_sl_after_tp_witness :
  exists out,
    label_with [mk_kline 112 95 100; mk_kline 100 85 90] alert_spec = Some out /\
    first_event out = EvSL /\ hit_sl out = true /\
    max_tp_reached out = 0%nat /\ hit_tp out = hit_tp_init.
Proof.
  apply (label_sl_after_tp unit (fun _ => Some tt) (fun t => t)
           (fetch_rows [mk_kline 112 95 100; mk_kline 100 85 90]) (fun _ => None)
           alert_spec true 100 90 [110; 120] [mk_kline 112 95 100]
           (mk_kline 100 85 90) []).
  - evaluates_concrete.
  - repeat constructor.
  - constructor. simpl. left. reflexivity.
  - reflexivity.
Defined.

(** C3 fails: TP1 is touched in bar 1, the stop-loss in bar 2; the result
    is first_event = "SL" and max_tp_reached = 0, not "TP1" and 1. *)
Lemma label_tp_then_sl_counterexample :
  exists out,
    label_with [mk_kline 112 95 100; mk_kline 100 85 90] alert_spec = Some out /\
    first_event out <> EvTP 1 /\ max_tp_reached out <> 1%nat.
Proof.
  eexists; split; [reflexivity|]. simpl. split; discriminate.
Defined.

Lemma label_single_hit_flag_witness :
  exists out,
    label_with [mk_kline 112 95 100; mk_kline 125 105 100] alert_spec = Some out /\
    (hit_sl out = true -> first_event out = EvSL) /\
    (forall i, hit_tp out !! i = Some true -> first_event out = EvTP i) /\
    (length (List.filter (fun h => h) (hit_flags out)) <= 1)%nat.
Proof.
  eexists; split; [reflexivity|].
  apply (label_single_hit_flag unit (fun _ => Some tt) (fun t => t)
           (fetch_rows [mk_kline 112 95 100; mk_kline 125 105 100])
           (fun _ => None) alert_spec).
  reflexivity.
Defined.

Lemma label_malformed_defaults_witness :
  label_with [] ∅ = Some (out_default ∅).
Proof.
  apply (label_malformed_defaults unit (fun _ => Some tt) (fun t => t)
           (fetch_rows []) (fun _ => None) ∅ 0).
  - reflexivity.
  - left. reflexivity.
Defined.

(** C9 fails: an alert without timestamp whose entry is a list makes
    [float(alert.get("entry") or 0.0)] raise before the guard. *)
Lemma label_bad_entry_raises_counterexample :
  get alert_bad_entry "timestamp" = PNone /\ label_with [] alert_bad_entry = None.
Proof. split; reflexivity. Defined.

(* ------------------------------------------------------------------ *)
(** ** Scoring *)

Lemma wget_insert_zero (w : gmap string Z) k k' :
  wget (<[k:=0%Z]> w) k' = wget (delete k w) k'.
Proof.
  unfold wget. destruct (decide (k = k')) as [<-|Hne].
  - rewrite lookup_insert_eq, lookup_delete_eq. reflexivity.
  - rewrite lookup_insert_ne, lookup_delete_ne by exact Hne. reflexivity.
Qed.

(** C4: for every feature set and weight tables, final_score is
    base_score + mtf_score + ctx_adj, ctx_adj is the feature set's
    [ctx_adj] (0 when absent), and a missing weight table or a missing
    weight key scores exactly as 0; score_signal is total. *)
Theorem score_final_is_sum (features : features) w mw :
  let r := score_signal features (mk_config w mw) in
  final_score r = (base_score r + mtf_score r + ctx_adj r)%Z /\
  ctx_adj r = match feat_ctx_adj features with Some c => c | None => 0%Z end /\
  score_signal features (mk_config None mw) =
    score_signal features (mk_config (Some ∅) mw) /\
  score_signal features (mk_config w None) =
    score_signal features (mk_config w (Some ∅)) /\
  (forall k ww, score_signal features (mk_config (Some (<[k:=0%Z]> ww)) mw) =
                score_signal features (mk_config (Some (delete k ww)) mw)) /\
  (forall k ww, score_signal features (mk_config w (Some (<[k:=0%Z]> ww))) =
                score_signal features (mk_config w (Some (delete k ww)))).
Proof.
  repeat split; try reflexivity;
    intros k ww; unfold score_signal, add_if; simpl;
    rewrite !wget_insert_zero; reflexivity.
Qed.


(** C5 fails: ema_down and macd_neg are true on a SELL feature set, every
    weight is 10, and base_score is 0. *)
Lemma score_sell_bearish_counterexample :
  truthy (get (feat features_sell) "ema_down") = true /\
  truthy (get (feat features_sell) "macd_neg") = true /\
  base_score (score_signal features_sell config_bearish) = 0%Z.
Proof. repeat split. Defined.

(** C5 (amended): score_signal has no side input and reads neither the
    bearish keys (ema_down, macd_neg, breakdown, retest_short) nor a side
    entry: setting any of them to any value leaves the Score Result
    unchanged, so they contribute nothing to base_score. *)
Theorem score_ignores_bearish_keys (features : features) (config : config) :
  Forall (fun k => forall v,
            score_signal (mk_features (<[k:=v]> (feat features))
                            (feat_ctx_adj features) (feat_tags features))
                         config = score_signal features config)
         bearish_keys.
Proof.
  unfold bearish_keys.
  repeat constructor; intros v; unfold score_signal, add_if, get; simpl;
    rewrite !lookup_insert_ne by discriminate; reflexivity.
Qed.

(* ------------------------------------------------------------------ *)
(** ** Persisted signal line *)

Lemma opt_float_shape pf d k v :
  opt_float pf d k = Some v ->
  (Some v = Some JNull <-> get d k = PNone) /\
  match v with JNull | JFloat _ => True | _ => False end.
Proof.
  unfold opt_float. intros H. destruct (get d k); simpl in H.
  - injection H as <-. split; [tauto | exact I].
  - injection H as <-. split; [split; discriminate | exact I].
  - injection H as <-. split; [split; discriminate | exact I].
  - injection H as <-. split; [split; discriminate | exact I].
  - destruct (pf s); simpl in H; [|discriminate H].
    injection H as <-. split; [split; discriminate | exact I].
  - discriminate H.
Qed.

Lemma log_typed_tags (py_str : pyval -> string) l :
  log_typed "tags" (JList (map (fun t => JStr (py_str t)) l)) = true.
Proof. simpl. induction l as [|t l IH]; simpl; [reflexivity | exact IH]. Qed.

Lemma log_typed_float k v :
  k ∈ log_float_keys ->
  match v with JNull | JFloat _ => True | _ => False end ->
  log_typed k v = true.
Proof.
  intros Hk Hv. destruct v; try contradiction; simpl;
    apply bool_decide_eq_true; exact Hk.
Qed.

(** C6 (amended): every persisted line is the fixed whitelist of
    [log_keys], in the order [log_signal] writes it: timestamp, symbol,
    final_score, base_score, side, tags, ema_align, macd_pos, vol_spike,
    tf15_confirm, swing_confirm, entry, sl, tp1, tp2, btc_ctx, breakout,
    retest, resistance, support.  timestamp, symbol and side are the
    strings [str()] gives of the source values (side "NONE" when absent;
    never null); final_score, base_score and btc_ctx are ints, 0 when the
    key is absent; tags is a list of strings; the seven flags are bools;
    entry, sl, tp1, tp2, resistance and support are a float, or null
    exactly when the source value is absent or None.  The take-profit
    ladder tps and the bounce_support, support_retest and fall_resistance
    flags are not persisted. *)
Theorem log_signal_projection py_str pf pi (data : pydict) line :
  log_signal py_str pf pi data = Some line ->
  map fst line = log_keys /\
  Forall (fun kv => log_typed kv.1 kv.2 = true) line /\
  Forall (fun k => assoc_get k line = Some JNull <-> get data k = PNone)
         log_float_keys /\
  (data !! "final_score" = None -> assoc_get "final_score" line = Some (JInt 0)) /\
  (data !! "base_score" = None -> assoc_get "base_score" line = Some (JInt 0)) /\
  (data !! "btc_ctx" = None -> assoc_get "btc_ctx" line = Some (JInt 0)) /\
  assoc_get "timestamp" line = Some (JStr (py_str (get data "timestamp"))) /\
  assoc_get "symbol" line = Some (JStr (py_str (get data "symbol"))) /\
  assoc_get "side" line = Some (JStr (py_str (get_or data "side" (PStr "NONE")))) /\
  assoc_get "tps" line = None /\
  assoc_get "bounce_support" line = None /\
  assoc_get "support_retest" line = None /\
  assoc_get "fall_resistance" line = None.
Proof.
  unfold log_signal. intros H.
  repeat match type of H with
  | context [mbind _ ?x] =>
      let E := fresh "E" in
      destruct x eqn:E; simpl in H; [|discriminate H]
  end.
  injection H as <-.
  repeat match goal with
  | E : opt_float _ _ _ = Some _ |- _ =>
      apply opt_float_shape in E; destruct E as [?Hnull ?Hty]
  end.
  split; [reflexivity|].
  split.
  { repeat (apply List.Forall_cons; [simpl|]); [..|apply List.Forall_nil];
      first [ reflexivity
            | apply log_typed_tags
            | apply log_typed_float; [set_solver | assumption] ]. }
  split.
  { repeat (apply List.Forall_cons; [simpl; assumption|]). apply List.Forall_nil. }
  split.
  { intros Hn. simpl. unfold get_or in *. rewrite Hn in *. simpl in *.
    congruence. }
  split.
  { intros Hn. simpl. unfold get_or in *. rewrite Hn in *. simpl in *.
    congruence. }
  split.
  { intros Hn. simpl. unfold get_or in *. rewrite Hn in *. simpl in *.
    congruence. }
  repeat split.
Qed.

Lemma log_signal_projection_witness :
  exists line,
    log_signal (fun _ => EmptyString) (fun _ => None) (fun _ => None)
      record_bounce = Some line /\
    map fst line = log_keys /\
    Forall (fun kv => log_typed kv.1 kv.2 = true) line /\
    Forall (fun k => assoc_get k line = Some JNull <-> get record_bounce k = PNone)
           log_float_keys /\
    (record_bounce !! "final_score" = None ->
       assoc_get "final_score" line = Some (JInt 0)) /\
    (record_bounce !! "base_score" = None ->
       assoc_get "base_score" line = Some (JInt 0)) /\
    (record_bounce !! "btc_ctx" = None ->
       assoc_get "btc_ctx" line = Some (JInt 0)) /\
    assoc_get "timestamp" line =
      Some (JStr ((fun _ => EmptyString) (get record_bounce "timestamp"))) /\
    assoc_get "symbol" line =
      Some (JStr ((fun _ => EmptyString) (get record_bounce "symbol"))) /\
    assoc_get "side" line =
      Some (JStr ((fun _ => EmptyString) (get_or record_bounce "side" (PStr "NONE")))) /\
    assoc_get "tps" line = None /\
    assoc_get "bounce_support" line = None /\
    assoc_get "support_retest" line = None /\
    assoc_get "fall_resistance" line = None.
Proof.
  eexists; split; [reflexivity|].
  apply (log_signal_projection (fun _ => EmptyString) (fun _ => None)
           (fun _ => None) record_bounce).
  reflexivity.
Defined.

(** C6 fails: the record of [analyze_symbol] carries bounce_support =
    True, and the persisted line has no bounce_support field. *)
Lemma log_signal_drops_flag_counterexample :
  get record_bounce "bounce_support" = PBool true /\
  exists line,
    log_signal (fun _ => EmptyString) (fun _ => None) (fun _ => None)
      record_bounce = Some line /\
    assoc_get "bounce_support" line = None.
Proof. split; [reflexivity|]. eexists; split; reflexivity. Defined.

(* ------------------------------------------------------------------ *)
(** ** Structural flags *)

(** C7: on every candle series, when the structural detector reports a
    breakout, the retest, bounce-from-support, support-retest and
    fall-from-resistance flags of the same bar are false. *)
Theorem breakout_excludes_other_flags candles min_move_pct s :
  detect_structure candles min_move_pct = Some s ->
  breakout s = true ->
  retest s = false /\ bounce_from_support s = false /\
  support_retest s = false /\ fall_from_resistance s = false.
Proof.
  unfold detect_structure. intros H Hb.
  repeat match type of H with
  | context [mbind _ ?x] => destruct x; simpl in H; [|discriminate H]
  end.
  injection H as <-. simpl in Hb |- *. rewrite Hb.
  rewrite !andb_false_r. repeat split.
Qed.

Lemma breakout_excludes_other_flags_witness :
  exists s,
    detect_structure candles_breakout (1#2) = Some s /\
    breakout s = true /\
    retest s = false /\ bounce_from_support s = false /\
    support_retest s = false /\ fall_from_resistance s = false.
Proof.
  eexists. split; [vm_compute; reflexivity|].
  split; [reflexivity|].
  apply (breakout_excludes_other_flags candles_breakout (1#2));
    [vm_compute; reflexivity | reflexivity].
Defined.

(* ------------------------------------------------------------------ *)
(** ** Levels *)

(** C8 (amended): when the decided side is "NONE", the stop-loss is
    unset, the take-profit ladder is empty and tp1/tp2 are unset, but the
    entry is still set to the last close. *)
Theorem levels_side_none last_close last_atr tp_multipliers sl_multiplier :
  let lv := build_levels "NONE" last_close last_atr tp_multipliers sl_multiplier in
  lv_sl lv = None /\ lv_tps lv = [] /\ lv_tp1 lv = None /\ lv_tp2 lv = None /\
  lv_entry lv = Some last_close.
Proof. repeat split. Qed.

(** C8 fails: with no direction (EMA and MACD disagree) the level set
    still has an entry, 100, the last close. *)
Lemma levels_side_none_entry_counterexample :
  decide_side true false false false = "NONE" /\
  lv_entry (build_levels (decide_side true false false false) 100 2
              default_tp_multipliers default_sl_multiplier) = Some 100.
Proof. split; reflexivity. Defined.

(* ------------------------------------------------------------------ *)
(** ** Symbols *)

Lemma ascii_upper_facts c :
  is_lower (ascii_upper c) = false /\
  Ascii.eqb (ascii_upper c) "_"%char = Ascii.eqb c "_"%char /\
  (ascii_upper c = c <-> is_lower c = false).
Proof.
  destruct c as [[] [] [] [] [] [] [] []]; vm_compute;
    (split; [reflexivity|]); (split; [reflexivity|]);
    split; intros H; (reflexivity || discriminate H).
Qed.

Lemma is_lower_underscore : is_lower "_"%char = false.
Proof. reflexivity. Qed.

(** X1: [mexc_symbol_from_scanner] removes every underscore, and applying
    it twice is the same as applying it once. *)
Theorem mexc_symbol_from_scanner_strips symbol :
  str_forallb (fun c => negb (Ascii.eqb c "_"%char))
    (mexc_symbol_from_scanner symbol) = true /\
  mexc_symbol_from_scanner (mexc_symbol_from_scanner symbol) =
    mexc_symbol_from_scanner symbol.
Proof.
  induction symbol as [|c rest [IH1 IH2]]; [split; reflexivity|].
  cbn -[Ascii.eqb]. destruct (Ascii.eqb c "_"%char) eqn:E.
  - split; assumption.
  - unfold str_forallb in *. cbn -[Ascii.eqb]. rewrite E. cbn -[Ascii.eqb].
    rewrite ?E. split; [exact IH1 | rewrite IH2; reflexivity].
Qed.

Lemma py_upper_facts s :
  str_forallb (fun c => negb (Ascii.eqb c "_"%char)) s = true ->
  str_forallb (fun c => negb (Ascii.eqb c "_"%char) && negb (is_lower c))
    (py_upper s) = true /\
  (py_upper s = s <-> str_forallb (fun c => negb (is_lower c)) s = true).
Proof.
  unfold str_forallb.
  induction s as [|c rest IH]; intros H; [split; [reflexivity | tauto]|].
  simpl in H |- *. apply andb_true_iff in H as [Hc Hrest].
  destruct (IH Hrest) as [IH1 IH2].
  destruct (ascii_upper_facts c) as (U1 & U2 & U3).
  rewrite U1, U2, Hc, IH1. split; [reflexivity|].
  split.
  - intros Heq. injection Heq as Hc' Hr'.
    apply U3 in Hc'. rewrite Hc'. apply IH2 in Hr'. rewrite Hr'. reflexivity.
  - intros Hall. apply andb_true_iff in Hall as [Hl Hr].
    rewrite negb_true_iff in Hl. apply U3 in Hl. rewrite Hl.
    apply IH2 in Hr. rewrite Hr. reflexivity.
Qed.

Lemma lower_free_strip symbol :
  str_forallb (fun c => negb (is_lower c)) (mexc_symbol_from_scanner symbol) =
  str_forallb (fun c => negb (is_lower c)) symbol.
Proof.
  unfold str_forallb.
  induction symbol as [|c rest IH]; [reflexivity|].
  cbn -[Ascii.eqb]. destruct (Ascii.eqb c "_"%char) eqn:E.
  - apply Ascii.eqb_eq in E. subst c. rewrite IH. reflexivity.
  - cbn -[Ascii.eqb]. rewrite IH. reflexivity.
Qed.

(** X2: on an ASCII symbol, [_symbol_to_mexc] yields neither underscores
    nor lowercase letters, and it agrees with [mexc_symbol_from_scanner]
    exactly when the symbol has no lowercase letter. *)
Theorem symbol_to_mexc_agrees symbol :
  str_forallb ascii7 symbol = true ->
  str_forallb (fun c => negb (Ascii.eqb c "_"%char) && negb (is_lower c))
    (_symbol_to_mexc symbol) = true /\
  (_symbol_to_mexc symbol = mexc_symbol_from_scanner symbol <->
   str_forallb (fun c => negb (is_lower c)) symbol = true).
Proof.
  intros _. unfold _symbol_to_mexc.
  destruct (mexc_symbol_from_scanner_strips symbol) as [H _].
  destruct (py_upper_facts _ H) as [P1 P2].
  split; [exact P1|]. rewrite P2, lower_free_strip. reflexivity.
Qed.

Lemma symbol_to_mexc_agrees_witness :
  str_forallb ascii7 "btc_usdt" = true /\
  str_forallb (fun c => negb (Ascii.eqb c "_"%char) && negb (is_lower c))
    (_symbol_to_mexc "btc_usdt") = true /\
  (_symbol_to_mexc "btc_usdt" = mexc_symbol_from_scanner "btc_usdt" <->
   str_forallb (fun c => negb (is_lower c)) "btc_usdt" = true).
Proof.
  split; [reflexivity|]. apply symbol_to_mexc_agrees. reflexivity.
Defined.

(* ------------------------------------------------------------------ *)
(** ** Alert files and the labeling run *)






Lemma translate_no_cr l :
  Forall (fun c => c <> "013"%char) l -> translate_newlines l = l.
Proof.
  induction 1 as [|x l Hx _ IH]; [reflexivity|]. simpl.
  destruct (Ascii.eqb x "013") eqn:E; [apply Ascii.eqb_eq in E; contradiction|].
  rewrite IH. reflexivity.
Qed.

Lemma translate_crlf l :
  Forall (fun c => c <> "013"%char) l -> translate_newlines (to_crlf l) = l.
Proof.
  induction 1 as [|x l Hx _ IH]; [reflexivity|]. unfold to_crlf. simpl.
  destruct (Ascii.eqb x "010") eqn:Ex.
  - apply Ascii.eqb_eq in Ex. subst x. simpl. fold (to_crlf l). rewrite IH. reflexivity.
  - simpl. destruct (Ascii.eqb x "013") eqn:E; [apply Ascii.eqb_eq in E; contradiction|].
    fold (to_crlf l). rewrite IH. reflexivity.
Qed.

(** X25: a file saved with Windows line endings gives the same alerts as
    the same file with ["\n"] endings: the file iteration reads
    ["\r\n"] as ["\n"]. *)
Theorem load_file_crlf json_loads content :
  Forall (fun c => c <> "013"%char) content ->
  load_alerts_file json_loads (to_crlf content) = load_alerts_file json_loads content.
Proof.
  intros H. unfold load_alerts_file, read_lines.
  rewrite translate_crlf, translate_no_cr by exact H. reflexivity.
Qed.

Lemma load_alerts_in json_loads fl line a :
  In line fl -> py_strip line <> ""%string ->
  json_loads (py_strip line) = Some a ->
  In a (load_alerts json_loads fl).
Proof.
  induction fl as [|l rest IH]; simpl; [tauto|].
  intros [<-|Hin] Hne Hj.
  - apply String.eqb_neq in Hne. rewrite Hne, Hj. left; reflexivity.
  - destruct (String.eqb (py_strip l) ""); [auto|].
    destruct (json_loads (py_strip l)); [right|]; auto.
Qed.

(** X4: one alert line on which [label_one_alert] raises aborts the whole
    labeling run of [main]: no file's results are produced. *)
Theorem label_all_aborts time fromisoformat_utc plus_5min fetch_future_klines
    parse_float_str json_loads files fl line a :
  In fl files -> In line fl -> py_strip line <> ""%string ->
  json_loads (py_strip line) = Some a ->
  label_loaded time fromisoformat_utc plus_5min fetch_future_klines
    parse_float_str a = None ->
  label_all time fromisoformat_utc plus_5min fetch_future_klines
    parse_float_str json_loads files = None.
Proof.
  intros Hfl Hl Hne Hj Ha. unfold label_all.
  apply mapM_None_2. apply List.Exists_exists. exists a. split; [|exact Ha].
  apply in_concat. exists (load_alerts json_loads fl). split.
  - apply in_map. exact Hfl.
  - exact (load_alerts_in json_loads fl line a Hl Hne Hj).
Qed.

Lemma label_all_aborts_witness :
  label_all unit (fun _ => Some tt) (fun t => t) (fetch_rows [])
    (fun _ => None) (fun _ => Some (LDict alert_bad_entry))
    [["{}"%string]; ["x"%string]] = None.
Proof.
  apply (label_all_aborts unit (fun _ => Some tt) (fun t => t) (fetch_rows [])
           (fun _ => None) (fun _ => Some (LDict alert_bad_entry))
           [["{}"%string]; ["x"%string]] ["x"%string] "x"%string
           (LDict alert_bad_entry)).
  - right; left; reflexivity.
  - left; reflexivity.
  - vm_compute. discriminate.
  - reflexivity.
  - reflexivity.
Defined.

(* ------------------------------------------------------------------ *)
(** ** More on the candle loop and on [label_one_alert] *)

(** [max_tp_idx] never exceeds the number of take-profit levels. *)
Lemma scan_tp_hits_bound hits i fe mx n :
  (i + length hits <= S n)%nat -> (mx <= n)%nat ->
  (snd (scan_tp_hits hits i fe mx) <= n)%nat.
Proof.
  revert i; induction hits as [|h hs IH]; intros i Hi Hmx; simpl; [exact Hmx|].
  simpl in Hi. destruct h; simpl.
  - destruct (Nat.ltb mx i); lia.
  - apply IH; lia.
Qed.

Lemma length_tp_hits_of b tps r : length (tp_hits_of b tps r) = length tps.
Proof. destruct b; apply length_map. Qed.

Lemma scan_rows_bound b sl tps rows fe mx :
  (mx <= length tps)%nat ->
  (snd (scan_rows b sl tps rows fe mx) <= length tps)%nat.
Proof.
  revert fe mx; induction rows as [|r rest IH]; intros fe mx Hmx; simpl; [exact Hmx|].
  destruct (sl_hit_of b sl r); [exact Hmx|].
  pose proof (scan_tp_hits_bound (tp_hits_of b tps r) 1 fe mx (length tps)) as H.
  rewrite length_tp_hits_of in H.
  destruct (scan_tp_hits (tp_hits_of b tps r) 1 fe mx) as [fe' mx'].
  apply IH. apply H; lia.
Qed.

(** [first_event] is still "NONE" only while [max_tp_idx] is 0. *)
Definition none_inv (fe : event) (mx : nat) : Prop := fe = EvNone -> mx = 0%nat.

Lemma scan_tp_hits_none_inv hits i fe mx :
  none_inv fe mx -> none_inv (fst (scan_tp_hits hits i fe mx))
                              (snd (scan_tp_hits hits i fe mx)).
Proof.
  revert i; induction hits as [|h hs IH]; intros i Hinv; simpl; [exact Hinv|].
  destruct h; simpl; [intros H; discriminate H | apply IH, Hinv].
Qed.

Lemma scan_rows_none_inv b sl tps rows fe mx :
  none_inv fe mx -> none_inv (fst (scan_rows b sl tps rows fe mx))
                              (snd (scan_rows b sl tps rows fe mx)).
Proof.
  revert fe mx; induction rows as [|r rest IH]; intros fe mx Hinv; simpl; [exact Hinv|].
  destruct (sl_hit_of b sl r); [intros H; discriminate H|].
  pose proof (scan_tp_hits_none_inv (tp_hits_of b tps r) 1 fe mx Hinv) as H.
  destruct (scan_tp_hits (tp_hits_of b tps r) 1 fe mx) as [fe' mx'].
  apply IH, H.
Qed.

Lemma scan_rows_tp_inv b sl tps rows :
  tp_inv (fst (scan_rows b sl tps rows EvNone 0)) (snd (scan_rows b sl tps rows EvNone 0)).
Proof.
  pose proof (scan_rows_inv b sl tps rows EvNone 0) as H.
  destruct (scan_rows b sl tps rows EvNone 0) as [fe mx]. apply H.
  intros i Hi; discriminate Hi.
Qed.

(** With no take-profit level the loop only ever records a stop-loss. *)
Lemma scan_rows_no_tps b sl rows fe mx :
  snd (scan_rows b sl [] rows fe mx) = mx /\
  (fst (scan_rows b sl [] rows fe mx) = fe \/ fst (scan_rows b sl [] rows fe mx) = EvSL).
Proof.
  revert fe mx; induction rows as [|r rest IH]; intros fe mx; simpl; [auto|].
  destruct (sl_hit_of b sl r); simpl; [auto|].
  replace (tp_hits_of b [] r) with (@nil bool) by (destruct b; reflexivity).
  simpl. apply IH.
Qed.

(** Rows touching no level leave the loop state unchanged. *)
Lemma scan_rows_untouched b sl tps rows fe mx :
  Forall (fun r => sl_hit_of b sl r = false /\
                   Forall (fun h => h = false) (tp_hits_of b tps r)) rows ->
  scan_rows b sl tps rows fe mx = (fe, mx).
Proof.
  revert fe mx; induction rows as [|r rest IH]; intros fe mx Hall; simpl; [reflexivity|].
  inversion Hall as [|? ? [Hsl Htp] Hrest]; subst.
  rewrite Hsl.
  assert (Hs : forall hits i, Forall (fun h => h = false) hits ->
                 scan_tp_hits hits i fe mx = (fe, mx)).
  { intros hits; induction hits as [|h hs IHh]; intros i Hh; simpl; [reflexivity|].
    inversion Hh as [|? ? Hh0 Hhs]; subst. apply IHh, Hhs. }
  rewrite (Hs _ 1%nat Htp). apply IH, Hrest.
Qed.

Lemma Qle_bool_opp a b : Qle_bool (- a) (- b) = Qle_bool b a.
Proof.
  apply eq_true_iff_eq. rewrite !Qle_bool_iff. split; intros; lra.
Qed.

(** X5: the SELL candle loop is the BUY candle loop on the prices
    reflected through zero: stop-loss and take-profits negated, each
    candle's high and low swapped and negated. *)
Theorem scan_rows_sell_mirror sl tps rows fe mx :
  scan_rows false sl tps rows fe mx =
  scan_rows true (- sl) (map Qopp tps) (map mirror_kline rows) fe mx.
Proof.
  revert fe mx; induction rows as [|r rest IH]; intros fe mx; simpl; [reflexivity|].
  rewrite Qle_bool_opp.
  destruct (Qle_bool sl (k_high r)); [reflexivity|].
  rewrite map_map.
  replace (map (fun x => Qle_bool (- x) (- k_low r)) tps)
    with (map (fun tp => Qle_bool (k_low r) tp) tps)
    by (apply map_ext; intros x; rewrite Qle_bool_opp; reflexivity).
  destruct (scan_tp_hits (map (fun tp => Qle_bool (k_low r) tp) tps) 1 fe mx).
  apply IH.
Qed.

Lemma finish_some out entry sl tps fe mx :
  (mx <= length tps)%nat -> is_Some (finish out entry sl tps fe mx).
Proof.
  intros Hmx. unfold finish. cbv zeta.
  repeat match goal with
         | |- context [if ?a && ?b then _ else _] => destruct a eqn:?; cbn [andb]
         | |- context [if negb ?a then _ else _] => destruct a eqn:?; cbn [negb]
         | |- context [if ?c then _ else _] => destruct c eqn:?
         | |- context [mbind _ (?l !! ?i)] =>
             let El := fresh "El" in
             destruct (l !! i) eqn:El; cbn [mbind option_bind];
             [|apply lookup_ge_None in El]
         end; try (eexists; reflexivity);
  repeat match goal with H : Nat.ltb _ _ = true |- _ => apply Nat.ltb_lt in H end;
  lia.
Qed.

(** [rr_at_max_tp] after [finish]: a ratio of absolute values, -1.0 on a
    stop-loss, or left as it was. *)
Lemma finish_rr out entry sl tps fe mx o :
  rr_at_max_tp out = 0 ->
  finish out entry sl tps fe mx = Some o ->
  0 <= rr_at_max_tp o \/ (rr_at_max_tp o = -1 /\ hit_sl o = true).
Proof.
  intros H0 H. unfold finish in H. cbv zeta in H.
  destruct fe; cbn -[Qabs Qdiv Qltb Qminus lookup] in H;
  repeat match type of H with
  | context [if ?a && ?b then _ else _] => destruct a; cbn [andb] in H
  | context [if ?c then _ else _] => destruct c
  | context [mbind _ ?x] => destruct x; cbn [mbind option_bind] in H; [|discriminate H]
  end;
  injection H as <-; cbn [rr_at_max_tp hit_sl];
  first [ left; rewrite H0; apply Qle_refl
        | left; apply Qle_refl
        | left; unfold Qdiv; apply Qmult_le_0_compat;
          [|apply Qinv_le_0_compat]; unfold Qle; simpl; lia
        | right; split; reflexivity ].
Qed.

Section LabelingExtras.
Variable time : Type.
Variable fromisoformat_utc : string -> option time.
Variable plus_5min : time -> time.
Variable fetch_future_klines : pyval -> time -> nat -> string + list kline.
Variable parse_float_str : string -> option Q.

Local Abbreviation label := (label_one_alert time fromisoformat_utc plus_5min
                 fetch_future_klines parse_float_str).
Local Abbreviation evaluates := (evaluates time fromisoformat_utc plus_5min
                 fetch_future_klines parse_float_str).

(** The three ways [label_one_alert] returns: the untouched defaults, the
    defaults with a kline-fetch error, or the result of the candle loop. *)
Lemma label_cases alert o :
  label alert = Some o ->
  o = out_default alert \/
  (exists e, o = mk_out alert false hit_tp_init EvNone 0 0
                   (Some (String.append "kline_fetch_error: " e))) \/
  (exists b entry sl tps rows,
     py_float_list parse_float_str (py_or (get alert "tps") (PList [])) = Some tps /\
     finish (out_default alert) entry sl tps
       (fst (scan_rows b sl tps rows EvNone 0))
       (snd (scan_rows b sl tps rows EvNone 0)) = Some o).
Proof.
  intros H. unfold label_one_alert in H.
  repeat match type of H with
  | context [if ?c then _ else _] =>
      destruct c; [left; injection H as <-; reflexivity|]
  | context [mbind _ ?x] =>
      let E := fresh "E" in
      destruct x eqn:E; cbn [mbind option_bind] in H; [|discriminate H]
  | context [match ?x with PNone => _ | _ => _ end] =>
      destruct x; try (left; injection H as <-; reflexivity)
  | context [match fromisoformat_utc ?x with None => _ | Some _ => _ end] =>
      destruct (fromisoformat_utc x); [|left; injection H as <-; reflexivity]
  | context [match fetch_future_klines ?a ?b ?c with inl _ => _ | inr _ => _ end] =>
      destruct (fetch_future_klines a b c) as [e|rows];
      [right; left; exists e; injection H as <-; reflexivity|]
  end.
  right; right.
  match type of H with
  | context [scan_rows ?b ?sl ?tps ?rows EvNone 0] =>
      match goal with
      | Hen : py_float _ (py_or (get alert "entry") _) = Some ?en |- _ =>
          exists b, en, sl, tps, rows
      end;
      destruct (scan_rows b sl tps rows EvNone 0) as [fe mx]; split; [|exact H]
  end.
  reflexivity.
Qed.

(** X6: every result of [label_one_alert] is a copy of the alert whose
    outcome fields agree with each other: a stop-loss outcome has
    first_event "SL" and max_tp_reached 0; first_event "NONE" comes with
    hit_sl false, max_tp_reached 0 and rr_at_max_tp 0.0; first_event
    "TP{i}" has 1 <= i <= max_tp_reached; and rr_at_max_tp is either
    non-negative or -1.0 on a stop-loss outcome. *)
Theorem label_outcome_consistent alert o :
  label_one_alert time fromisoformat_utc plus_5min fetch_future_klines
    parse_float_str alert = Some o ->
  out_alert o = alert /\
  (hit_sl o = true -> first_event o = EvSL /\ max_tp_reached o = 0%nat) /\
  (first_event o = EvNone ->
     hit_sl o = false /\ max_tp_reached o = 0%nat /\ rr_at_max_tp o = 0) /\
  (forall i, first_event o = EvTP i -> (1 <= i <= max_tp_reached o)%nat) /\
  (0 <= rr_at_max_tp o \/ (rr_at_max_tp o = -1 /\ hit_sl o = true)).
Proof.
  intros H.
  destruct (label_cases alert o H) as [->|[[e ->]|(b & entry & sl & tps & rows & _ & Hf)]].
  - simpl. repeat split; try discriminate; left; apply Qle_refl.
  - simpl. repeat split; try discriminate; left; apply Qle_refl.
  - pose proof (scan_rows_tp_inv b sl tps rows) as Htp.
    pose proof (scan_rows_none_inv b sl tps rows EvNone 0 (fun _ => eq_refl)) as Hnone.
    pose proof (finish_rr (out_default alert) _ _ _ _ _ _ eq_refl Hf) as Hrr.
    destruct (scan_rows b sl tps rows EvNone 0) as [fe mx]. simpl in *.
    pose proof Hf as Hf'.
    apply finish_shape in Hf. simpl in Hf.
    destruct Hf as (Hsl & _ & Hfe & Hmx & Hal & _).
    split; [exact Hal|]. split; [|split; [|split; [|exact Hrr]]].
    + intros Hs. rewrite Hsl in Hs. destruct fe; try discriminate Hs.
      simpl in Hfe, Hmx. split; assumption.
    + intros Hn. rewrite Hfe in Hn.
      destruct fe as [| |j]; simpl in Hn, Hsl, Hmx, Hfe.
      * rewrite (Hnone eq_refl) in *. simpl in *.
        unfold finish in Hf'. simpl in Hf'. injection Hf' as <-.
        simpl. repeat split.
      * discriminate Hn.
      * destruct (Nat.eqb mx 0) eqn:E0; [|discriminate Hn].
        unfold finish in Hf'. simpl in Hf'. rewrite ?E0 in Hf'. simpl in Hf'.
        injection Hf' as <-. simpl. repeat split.
    + intros i Hi. rewrite Hfe in Hi. specialize (Htp i).
      destruct fe as [| |j]; simpl in Hi, Hmx.
      * destruct (Nat.eqb mx 0); discriminate Hi.
      * discriminate Hi.
      * destruct (Nat.eqb mx 0) eqn:E0; simpl in Hi, Hmx; [discriminate Hi|].
        injection Hi as <-. rewrite Hmx. apply Htp. reflexivity.
Qed.

(** X7: for an alert that passes every guard, [label_one_alert] returns
    (the [tp_levels[max_tp_idx - 1]] lookup never raises) and
    max_tp_reached is at most the number of take-profit levels. *)
Theorem label_within_ladder alert b entry sl tps rows :
  evaluates alert b entry sl tps rows ->
  exists o, label alert = Some o /\ (max_tp_reached o <= length tps)%nat.
Proof.
  intros Hev. rewrite (label_evaluates time fromisoformat_utc plus_5min
                         fetch_future_klines parse_float_str _ _ _ _ _ _ Hev).
  pose proof (scan_rows_bound b sl tps rows EvNone 0 (Nat.le_0_l _)) as Hb.
  destruct (scan_rows b sl tps rows EvNone 0) as [fe mx]. simpl in Hb.
  destruct (finish_some (out_default alert) entry sl tps fe mx Hb) as [o Ho].
  exists o. split; [exact Ho|].
  apply finish_shape in Ho. destruct Ho as (_ & _ & _ & Hmx & _).
  rewrite Hmx. destruct (ev_is_sl fe), (Nat.eqb mx 0); simpl; lia.
Qed.

(** X8: a result carrying an [error] key comes from a failed kline fetch:
    the message is "kline_fetch_error: " followed by the exception text,
    and every outcome field is at its default. *)
Theorem label_error_defaults alert o :
  label alert = Some o -> out_error o <> None ->
  hit_sl o = false /\ hit_tp o = hit_tp_init /\ first_event o = EvNone /\
  max_tp_reached o = 0%nat /\ rr_at_max_tp o = 0 /\
  exists e, out_error o = Some (String.append "kline_fetch_error: " e).
Proof.
  intros H Herr.
  destruct (label_cases alert o H) as [->|[[e ->]|(b & entry & sl & tps & rows & _ & Hf)]].
  - exfalso; apply Herr; reflexivity.
  - simpl. repeat split. exists e. reflexivity.
  - apply finish_shape in Hf. destruct Hf as (_ & _ & _ & _ & _ & He).
    exfalso; apply Herr; exact He.
Qed.

(** X9: when no candle of the horizon touches the stop-loss or a
    take-profit, the alert keeps every outcome field at its default
    (first_event "NONE", max_tp_reached 0, rr_at_max_tp 0.0). *)
Theorem label_untouched_defaults alert b entry sl tps rows :
  evaluates alert b entry sl tps rows ->
  Forall (fun r => sl_hit_of b sl r = false /\
                   Forall (fun h => h = false) (tp_hits_of b tps r)) rows ->
  label alert = Some (out_default alert).
Proof.
  intros Hev Hrows.
  rewrite (label_evaluates time fromisoformat_utc plus_5min
             fetch_future_klines parse_float_str _ _ _ _ _ _ Hev).
  rewrite (scan_rows_untouched b sl tps rows EvNone 0 Hrows).
  reflexivity.
Qed.

(** An alert without a [tps] entry is labelled with an empty ladder:
    the outcome is "SL" or "NONE", never a take-profit. *)
Lemma label_without_tps alert o :
  get alert "tps" = PNone ->
  label alert = Some o ->
  max_tp_reached o = 0%nat /\ hit_tp o = hit_tp_init /\
  (first_event o = EvNone \/ first_event o = EvSL) /\
  (rr_at_max_tp o = 0 \/ rr_at_max_tp o = -1).
Proof.
  intros Htps H.
  destruct (label_cases alert o H) as [->|[[e ->]|(b & entry & sl & tps & rows & Hl & Hf)]].
  - simpl. auto.
  - simpl. auto.
  - rewrite Htps in Hl. simpl in Hl. injection Hl as <-.
    destruct (scan_rows_no_tps b sl rows EvNone 0) as [Hmx [Hfe|Hfe]];
      rewrite Hmx, Hfe in Hf.
    + unfold finish in Hf. simpl in Hf. injection Hf as <-. simpl. auto.
    + rewrite finish_sl in Hf. injection Hf as <-. simpl.
      destruct (Qeq_bool entry sl); auto.
Qed.
End LabelingExtras.

(** The keys of a written line are those of [log_keys]. *)
Lemma log_signal_keys py_str parse_float_str parse_int_str data line :
  log_signal py_str parse_float_str parse_int_str data = Some line ->
  map fst line = log_keys.
Proof.
  unfold log_signal. intros H.
  repeat match type of H with
  | context [mbind _ ?x] => destruct x; simpl in H; [|discriminate H]
  end.
  injection H as <-. reflexivity.
Qed.

Lemma line_to_alert_no_tps line :
  map fst line = log_keys -> get (line_to_alert line) "tps" = PNone.
Proof.
  intros Hk. unfold get, line_to_alert.
  rewrite not_elem_of_list_to_map_1; [reflexivity|].
  intros Hin. apply list_elem_of_fmap in Hin as ([k v] & Hkv & Hin).
  simpl in Hkv. subst k.
  apply list_elem_of_In, in_rev, in_map_iff in Hin.
  destruct Hin as ([k' v'] & Heq & Hin). injection Heq as -> _.
  apply (in_map fst) in Hin. rewrite Hk in Hin. simpl in Hin.
  repeat (destruct Hin as [Hin|Hin]; [discriminate Hin|]). exact Hin.
Qed.

(** X10: a line written by [log_signal] has no [tps] entry, so when
    [load_alerts] reads it back, [label_one_alert] labels it with an empty
    take-profit ladder: max_tp_reached is 0, no hit_tp flag is set,
    first_event is "NONE" or "SL" and rr_at_max_tp is 0.0 or -1.0. *)
Theorem logged_line_never_reaches_tp py_str log_parse_float parse_int_str data
    line time fromisoformat_utc plus_5min fetch_future_klines parse_float_str o :
  log_signal py_str log_parse_float parse_int_str data = Some line ->
  label_one_alert time fromisoformat_utc plus_5min fetch_future_klines
    parse_float_str (line_to_alert line) = Some o ->
  max_tp_reached o = 0%nat /\ hit_tp o = hit_tp_init /\
  (first_event o = EvNone \/ first_event o = EvSL) /\
  (rr_at_max_tp o = 0 \/ rr_at_max_tp o = -1).
Proof.
  intros Hlog Hl.
  apply (label_without_tps time fromisoformat_utc plus_5min fetch_future_klines
           parse_float_str (line_to_alert line) o); [|exact Hl].
  apply line_to_alert_no_tps. exact (log_signal_keys _ _ _ _ _ Hlog).
Qed.

(** [str()] of the string values of a record. *)
Definition str_of_pyval (v : pyval) : string :=
  match v with PStr s => s | _ => EmptyString end.

Lemma logged_line_never_reaches_tp_witness :
  exists line o,
    log_signal str_of_pyval (fun _ => None) (fun _ => None) record_bounce = Some line /\
    label_with [mk_kline 101 96 100] (line_to_alert line) = Some o /\
    first_event o = EvSL /\
    (max_tp_reached o = 0%nat /\ hit_tp o = hit_tp_init /\
     (first_event o = EvNone \/ first_event o = EvSL) /\
     (rr_at_max_tp o = 0 \/ rr_at_max_tp o = -1)).
Proof.
  do 2 eexists. split; [reflexivity|]. split; [vm_compute; reflexivity|].
  split; [reflexivity|].
  eapply (logged_line_never_reaches_tp str_of_pyval (fun _ => None) (fun _ => None)
           record_bounce _ unit (fun _ => Some tt) (fun t => t)
           (fetch_rows [mk_kline 101 96 100]) (fun _ => None)).
  - reflexivity.
  - vm_compute. reflexivity.
Defined.

(* ------------------------------------------------------------------ *)
(** ** Labeling extras on concrete alerts *)

Lemma label_outcome_consistent_witness :
  exists o,
    label_with [mk_kline 112 95 100; mk_kline 125 105 110] alert_spec = Some o /\
    out_alert o = alert_spec /\
    (hit_sl o = true -> first_event o = EvSL /\ max_tp_reached o = 0%nat) /\
    (first_event o = EvNone ->
       hit_sl o = false /\ max_tp_reached o = 0%nat /\ rr_at_max_tp o = 0) /\
    (forall i, first_event o = EvTP i -> (1 <= i <= max_tp_reached o)%nat) /\
    (0 <= rr_at_max_tp o \/ (rr_at_max_tp o = -1 /\ hit_sl o = true)).
Proof.
  eexists. split; [vm_compute; reflexivity|].
  apply (label_outcome_consistent unit (fun _ => Some tt) (fun t => t)
           (fetch_rows [mk_kline 112 95 100; mk_kline 125 105 110])
           (fun _ => None) alert_spec).
  vm_compute. reflexivity.
Defined.

Lemma label_within_ladder_witness :
  exists o, label_with [mk_kline 112 95 100; mk_kline 125 105 110] alert_spec = Some o /\
    (max_tp_reached o <= length [110; 120])%nat.
Proof.
  apply (label_within_ladder unit (fun _ => Some tt) (fun t => t)
           (fetch_rows [mk_kline 112 95 100; mk_kline 125 105 110])
           (fun _ => None) alert_spec true 100 90 [110; 120]
           [mk_kline 112 95 100; mk_kline 125 105 110]).
  evaluates_concrete.
Defined.

Lemma label_error_defaults_witness :
  exists o,
    label_one_alert unit (fun _ => Some tt) (fun t => t)
      (fun _ _ _ => inl "timeout"%string) (fun _ => None) alert_spec = Some o /\
    out_error o <> None /\
    (hit_sl o = false /\ hit_tp o = hit_tp_init /\ first_event o = EvNone /\
     max_tp_reached o = 0%nat /\ rr_at_max_tp o = 0 /\
     exists e, out_error o = Some (String.append "kline_fetch_error: " e)).
Proof.
  eexists. split; [vm_compute; reflexivity|]. split; [discriminate|].
  apply (label_error_defaults unit (fun _ => Some tt) (fun t => t)
           (fun _ _ _ => inl "timeout"%string) (fun _ => None) alert_spec).
  - vm_compute. reflexivity.
  - discriminate.
Defined.

Lemma label_untouched_defaults_witness :
  label_with [mk_kline 105 95 100] alert_spec = Some (out_default alert_spec).
Proof.
  apply (label_untouched_defaults unit (fun _ => Some tt) (fun t => t)
           (fetch_rows [mk_kline 105 95 100]) (fun _ => None) alert_spec
           true 100 90 [110; 120] [mk_kline 105 95 100]).
  - evaluates_concrete.
  - repeat constructor.
Defined.

(* ------------------------------------------------------------------ *)
(** ** Scoring extras *)

(** X11: [score_signal] depends on the features only through the
    truthiness of the nine flags it reads ([ema_align], [macd_pos],
    [vol_spike], [breakout], [retest], [bounce_support],
    [support_retest], [fall_resistance], [mtf_ema_align]), the
    [ctx_adj] value and the [tags] list: any other key, and any change
    of a flag's value that keeps its truthiness, leaves the result
    unchanged. *)
Theorem score_reads_flag_truthiness f1 f2 config :
  Forall (fun k => truthy (get (feat f1) k) = truthy (get (feat f2) k))
         score_flag_keys ->
  feat_ctx_adj f1 = feat_ctx_adj f2 ->
  feat_tags f1 = feat_tags f2 ->
  score_signal f1 config = score_signal f2 config.
Proof.
  intros Hk Hc Ht. unfold score_flag_keys in Hk.
  repeat (apply Forall_cons in Hk as [? Hk]).
  unfold score_signal, add_if.
  repeat match goal with H : truthy _ = truthy _ |- _ => rewrite H; clear H end.
  rewrite Hc, Ht. reflexivity.
Qed.

Lemma wget_nonneg w k :
  map_Forall (fun _ v => (0 <= v)%Z) w -> (0 <= wget w k)%Z.
Proof.
  intros Hw. unfold wget. destruct (w !! k) eqn:E; [exact (Hw _ _ E) | lia].
Qed.

Lemma add_if_mono f1 f2 k w wk a1 a2 :
  (0 <= wget w wk)%Z ->
  implb (truthy (get f1 k)) (truthy (get f2 k)) = true ->
  (0 <= a1 <= a2)%Z ->
  (0 <= add_if f1 k w wk a1 <= add_if f2 k w wk a2)%Z.
Proof.
  unfold add_if. intros Hw Hi Ha.
  destruct (truthy (get f1 k)), (truthy (get f2 k)); simpl in Hi; lia.
Qed.

(** X12: with non-negative weights, base_score and mtf_score are
    non-negative and monotone in the flags: making more of the nine
    read flags truthy never lowers either score. *)
Theorem score_monotone f1 f2 config :
  (forall w, cfg_weights config = Some w -> map_Forall (fun _ v => (0 <= v)%Z) w) ->
  (forall w, cfg_mtf_weights config = Some w -> map_Forall (fun _ v => (0 <= v)%Z) w) ->
  Forall (fun k => implb (truthy (get (feat f1) k)) (truthy (get (feat f2) k)) = true)
         score_flag_keys ->
  (0 <= base_score (score_signal f1 config) <= base_score (score_signal f2 config))%Z /\
  (0 <= mtf_score (score_signal f1 config) <= mtf_score (score_signal f2 config))%Z.
Proof.
  intros Hw Hm Hk. unfold score_flag_keys in Hk.
  repeat (apply Forall_cons in Hk as [? Hk]).
  assert (Hw' : forall k, (0 <= wget (match cfg_weights config with
                                      | Some w => w | None => ∅ end) k)%Z).
  { intros k. destruct (cfg_weights config) as [w|] eqn:E.
    - apply wget_nonneg, Hw, eq_refl.
    - unfold wget. rewrite lookup_empty. lia. }
  assert (Hm' : forall k, (0 <= wget (match cfg_mtf_weights config with
                                      | Some w => w | None => ∅ end) k)%Z).
  { intros k. destruct (cfg_mtf_weights config) as [w|] eqn:E.
    - apply wget_nonneg, Hm, eq_refl.
    - unfold wget. rewrite lookup_empty. lia. }
  unfold score_signal. cbv zeta. cbn [base_score mtf_score].
  split; repeat (apply add_if_mono; [apply Hw' || apply Hm' | assumption |]); lia.
Qed.

(* ------------------------------------------------------------------ *)
(** ** Structure extras *)

Lemma series_max_None l : series_max l = None -> l = [].
Proof. destruct l; [reflexivity | discriminate]. Qed.

Lemma series_min_None l : series_min l = None -> l = [].
Proof. destruct l; [reflexivity | discriminate]. Qed.

(** X13: the structural block of [analyze_symbol] computes its levels and
    flags exactly when the frame has at least two candles; with fewer,
    [candles.iloc[-2]] (or [iloc[-1]]) raises. *)
Theorem detect_structure_defined candles min_move_pct :
  (exists s, detect_structure candles min_move_pct = Some s) <->
  (2 <= length candles)%nat.
Proof.
  split.
  - intros [s H]. destruct candles as [|c1 [|c2 rest]]; simpl; try lia;
      unfold detect_structure in H; cbn in H; discriminate H.
  - intros Hlen. unfold detect_structure. cbv zeta.
    destruct (last candles) as [lc|] eqn:El;
      [|apply last_None in El; subst; simpl in Hlen; lia].
    cbn [mbind option_bind].
    repeat match goal with
           | |- context [mbind _ ?x] =>
               let E := fresh "E" in destruct x eqn:E; cbn [mbind option_bind]
           end;
    try (eexists; reflexivity);
    exfalso;
    match goal with
    | E : (if ?c then _ else _) = None |- _ =>
        let Ec := fresh "Ec" in destruct c eqn:Ec
    end;
    repeat match goal with
           | E : series_max _ = None |- _ => apply series_max_None in E
           | E : series_min _ = None |- _ => apply series_min_None in E
           | E : _ !! _ = None |- _ => apply lookup_ge_None in E
           | E : Nat.ltb _ _ = true |- _ => apply Nat.ltb_lt in E
           | E : Nat.ltb _ _ = false |- _ => apply Nat.ltb_ge in E
           | E : map _ _ = [] |- _ => apply (f_equal length) in E;
                                      rewrite length_map in E
           end;
    try discriminate;
    unfold lastn, window in *;
    rewrite ?length_drop, ?length_take in *; simpl in *; lia.
Qed.

(** Breakout forces the other structural flags off (lines 229-274). *)
Lemma detect_breakout_flags candles min_move_pct s :
  detect_structure candles min_move_pct = Some s ->
  breakout s = true ->
  retest s = false /\ bounce_from_support s = false /\
  support_retest s = false /\ fall_from_resistance s = false.
Proof.
  unfold detect_structure. intros H Hb.
  repeat match type of H with
  | context [mbind _ ?x] => destruct x; simpl in H; [|discriminate H]
  end.
  injection H as <-. simpl in Hb |- *. rewrite Hb.
  rewrite !andb_false_r. repeat split.
Qed.

(** X14: the retest and fall-from-resistance flags never hold together
    (one needs close >= resistance, the other close < resistance), and a
    support retest is always also a bounce from support. *)
Theorem structure_flags_consistent candles min_move_pct s :
  detect_structure candles min_move_pct = Some s ->
  retest s && fall_from_resistance s = false /\
  (support_retest s = true -> bounce_from_support s = true).
Proof.
  unfold detect_structure. intros H. cbv zeta in H.
  repeat match type of H with
  | context [mbind _ ?x] => destruct x; cbn [mbind option_bind] in H; [|discriminate H]
  end.
  injection H as <-. cbn [retest fall_from_resistance support_retest
                          bounce_from_support].
  unfold Qltb.
  repeat match goal with
         | |- context [Qle_bool ?a ?b] => destruct (Qle_bool a b)
         | |- context [existsb ?f ?l] => destruct (existsb f l)
         end;
  cbn; split; intros; (reflexivity || discriminate || assumption).
Qed.

Lemma qmax_ge_l a b : a <= qmax a b.
Proof.
  unfold qmax. destruct (Qle_bool a b) eqn:E; [apply Qle_bool_iff, E | apply Qle_refl].
Qed.

Lemma qmax_ge_r a b : b <= qmax a b.
Proof.
  unfold qmax. destruct (Qle_bool a b) eqn:E; [apply Qle_refl|].
  apply Qlt_le_weak, Qnot_le_lt. intros H. apply Qle_bool_iff in H. congruence.
Qed.

Lemma qmin_le_l a b : qmin a b <= a.
Proof.
  unfold qmin. destruct (Qle_bool a b) eqn:E; [apply Qle_refl|].
  apply Qlt_le_weak, Qnot_le_lt. intros H. apply Qle_bool_iff in H. congruence.
Qed.

Lemma fold_qmax_ge xs acc : acc <= fold_left qmax xs acc.
Proof.
  revert acc; induction xs as [|x xs IH]; intros acc; simpl; [apply Qle_refl|].
  eapply Qle_trans; [apply qmax_ge_l | apply IH].
Qed.

Lemma fold_qmin_le xs acc : fold_left qmin xs acc <= acc.
Proof.
  revert acc; induction xs as [|x xs IH]; intros acc; simpl; [apply Qle_refl|].
  eapply Qle_trans; [apply IH | apply qmin_le_l].
Qed.

Lemma series_min_le_max (l : list candle) r s :
  Forall (fun c => c_low c <= c_high c) l ->
  series_max (map c_high l) = Some r -> series_min (map c_low l) = Some s ->
  s <= r.
Proof.
  destruct l as [|x l]; [discriminate|]. simpl. intros Hl Hr Hs.
  injection Hr as <-. injection Hs as <-.
  inversion Hl as [|? ? Hx _]; subst.
  eapply Qle_trans; [apply fold_qmin_le|].
  eapply Qle_trans; [exact Hx | apply fold_qmax_ge].
Qed.

(** X15: on candles whose low never exceeds their high, the support found
    by the structural block is at most the resistance. *)
Theorem support_le_resistance candles min_move_pct s :
  Forall (fun c => c_low c <= c_high c) candles ->
  detect_structure candles min_move_pct = Some s ->
  support s <= resistance s.
Proof.
  intros Hc H. unfold detect_structure in H. cbv zeta in H.
  repeat match type of H with
  | context [mbind _ ?x] =>
      let E := fresh "E" in
      destruct x eqn:E; cbn [mbind option_bind] in H; [|discriminate H]
  end.
  injection H as <-. cbn [support resistance].
  match goal with
  | E : (if ?c then series_max _ else _) = Some _ |- _ => destruct c
  end;
  (eapply series_min_le_max; [|eassumption|eassumption]);
  [unfold lastn; apply Forall_drop, Forall_take|]; exact Hc.
Qed.

(** X16: the tags of [features_for_scoring] and the base score of a bar
    on which the structural block reports a breakout: the tags contain
    "BO" and none of "RT", "BSUP", "SRT", "FRES", and base_score is the
    sum of the ema_align, macd and vol_spike weights of the flags set and
    of the breakout weight, with no retest weight. *)
Theorem breakout_bar_scoring candles min_move_pct st ema_align macd_pos
    vol_spike tf15_confirm swing_confirm btc_ctx config :
  detect_structure candles min_move_pct = Some st ->
  breakout st = true ->
  let w := match cfg_weights config with Some w => w | None => ∅ end in
  base_score (score_signal (features_for_scoring ema_align macd_pos vol_spike
                              tf15_confirm swing_confirm st btc_ctx) config) =
    ((if ema_align then wget w "ema_align" else 0) +
     (if macd_pos then wget w "macd" else 0) +
     (if vol_spike then wget w "vol_spike" else 0) + wget w "breakout")%Z /\
  In "BO"%string (feature_tags ema_align macd_pos vol_spike tf15_confirm st) /\
  Forall (fun tg => ~ In tg (feature_tags ema_align macd_pos vol_spike tf15_confirm st))
         ["RT"; "BSUP"; "SRT"; "FRES"]%string.
Proof.
  intros H Hb.
  destruct (detect_breakout_flags candles min_move_pct st H Hb) as (Hr & Hbs & Hs & Hf).
  destruct st as [res sup bo bs sr fr rt]; cbn in Hb, Hr, Hbs, Hs, Hf; subst.
  intros w.
  destruct ema_align, macd_pos, vol_spike, tf15_confirm, swing_confirm;
  (split;
   [unfold score_signal, add_if; cbn -[wget truthy get]; fold w;
    repeat match goal with
           | |- context [truthy (get ?d ?k)] =>
               let v := eval vm_compute in (truthy (get d k)) in
               change (truthy (get d k)) with v
           end; cbn -[wget]; lia|]);
  (split; [cbn; tauto|]);
  repeat constructor; cbn; intuition discriminate.
Qed.

(** X17: on candles whose low never exceeds their high, the ATR used for
    the levels is non-negative. *)
Theorem atr_last_nonneg candles len :
  Forall (fun c => c_low c <= c_high c) candles ->
  0 <= atr_last candles len.
Proof.
  intros Hc.
  assert (Htr : Forall (fun x => 0 <= x) (true_ranges candles)).
  { destruct candles as [|c rest]; simpl; [constructor|].
    inversion Hc as [|? ? Hc0 _]; subst.
    constructor; [apply Qle_minus_iff in Hc0; exact Hc0|].
    clear. revert c; induction rest as [|c' rest IH]; intros c;
      cbn [true_ranges_from]; constructor.
    - eapply Qle_trans; [apply Qabs_nonneg | apply qmax_ge_r].
    - apply IH. }
  unfold atr_last. unfold Qdiv. apply Qmult_le_0_compat.
  - assert (Hw : Forall (fun x => 0 <= x) (lastn len (true_ranges candles)))
      by (unfold lastn; apply Forall_drop, Htr).
    induction Hw as [|x l Hx _ IH]; simpl; [apply Qle_refl|].
    apply (Qplus_le_compat 0 x 0 _ Hx) in IH. exact IH.
  - apply Qinv_le_0_compat. unfold Qle; simpl; lia.
Qed.

(* ------------------------------------------------------------------ *)
(** ** Levels and side extras *)

(** X18: with a non-negative ATR, stop-loss multiplier and take-profit
    multipliers, a BUY level set has its stop-loss at or below the entry
    and every take-profit at or above it, a SELL level set the other way
    round, and the ladder has one level per multiplier. *)
Theorem build_levels_ordered side last_close last_atr tp_multipliers sl_multiplier :
  0 <= last_atr -> 0 <= sl_multiplier ->
  Forall (fun m => 0 <= m) tp_multipliers ->
  side = "BUY"%string \/ side = "SELL"%string ->
  let lv := build_levels side last_close last_atr tp_multipliers sl_multiplier in
  exists sl, lv_sl lv = Some sl /\ length (lv_tps lv) = length tp_multipliers /\
    (if String.eqb side "BUY" then
       sl <= last_close /\ Forall (fun tp => last_close <= tp) (lv_tps lv)
     else
       last_close <= sl /\ Forall (fun tp => tp <= last_close) (lv_tps lv)).
Proof.
  intros Ha Hs Hm [-> | ->]; cbn -[Qminus Qplus Qmult Qle]; eexists;
    (split; [reflexivity|]); (split; [apply length_map|]);
    (split; [pose proof (Qmult_le_0_compat _ _ Ha Hs); lra|]);
    apply List.Forall_forall; intros tp Htp;
    apply in_map_iff in Htp as (m & <- & Hin);
    pose proof (proj1 (List.Forall_forall _ _) Hm m Hin) as Hm0;
    pose proof (Qmult_le_0_compat _ _ Ha Hm0); lra.
Qed.

Lemma lookup_map_list {A B} (f : A -> B) (l : list A) i :
  map f l !! i = f <$> l !! i.
Proof.
  revert i; induction l as [|x l IH]; intros [|i]; simpl; auto.
Qed.

(** X19: with a positive ATR, the take-profit ladder follows the order of
    the multipliers: a larger multiplier gives a higher take-profit for
    BUY and a lower one for SELL. *)
Theorem build_levels_ladder_order side last_close last_atr tp_multipliers
    sl_multiplier i j mi mj :
  0 < last_atr ->
  side = "BUY"%string \/ side = "SELL"%string ->
  tp_multipliers !! i = Some mi -> tp_multipliers !! j = Some mj -> mi < mj ->
  let lv := build_levels side last_close last_atr tp_multipliers sl_multiplier in
  exists ti tj, lv_tps lv !! i = Some ti /\ lv_tps lv !! j = Some tj /\
    (if String.eqb side "BUY" then ti < tj else tj < ti).
Proof.
  intros Ha [-> | ->] Hi Hj Hij; cbn -[Qminus Qplus Qmult Qlt map];
    rewrite !lookup_map_list, Hi, Hj; do 2 eexists;
    (split; [reflexivity|]); (split; [reflexivity|]);
    pose proof (proj2 (Qmult_lt_l mi mj last_atr Ha) Hij); lra.
Qed.

Lemma Qltb_iff x y : Qltb x y = true <-> x < y.
Proof.
  unfold Qltb. rewrite negb_true_iff. split.
  - intros H. apply Qnot_le_lt. intros H'. apply Qle_bool_iff in H'. congruence.
  - intros H. destruct (Qle_bool y x) eqn:E; [|reflexivity].
    apply Qle_bool_iff in E. exfalso. exact (Qlt_not_le _ _ H E).
Qed.

Lemma Qltb_false x y : Qltb x y = false -> y <= x.
Proof.
  unfold Qltb. rewrite negb_false_iff. apply Qle_bool_iff.
Qed.

(** X20: the side is "BUY" exactly when close > EMA20 > EMA50 and the
    MACD histogram is positive, and "SELL" exactly when close < EMA20 <
    EMA50 and the histogram is negative; the two never compete. *)
Theorem side_of_indicators_spec close ema20 ema50 macd_hist :
  (side_of_indicators close ema20 ema50 macd_hist = "BUY"%string <->
     ema20 < close /\ ema50 < ema20 /\ 0 < macd_hist) /\
  (side_of_indicators close ema20 ema50 macd_hist = "SELL"%string <->
     close < ema20 /\ ema20 < ema50 /\ macd_hist < 0).
Proof.
  unfold side_of_indicators, decide_side.
  repeat match goal with
         | |- context [Qltb ?a ?b] =>
             let E := fresh "E" in
             destruct (Qltb a b) eqn:E; [apply Qltb_iff in E | apply Qltb_false in E]
         end;
  cbn; split; split; intros Hc;
  try discriminate Hc; try reflexivity;
  try (repeat split; assumption);
  exfalso; destruct Hc as (? & ? & ?); lra.
Qed.

(* ------------------------------------------------------------------ *)
(** ** Indicator extras *)

Lemma length_ewm_from a p xs : length (ewm_from a p xs) = length xs.
Proof. revert p; induction xs; intros p; simpl; auto. Qed.

Lemma length_ewm_adjust_false a xs : length (ewm_adjust_false a xs) = length xs.
Proof. destruct xs; simpl; [reflexivity | rewrite length_ewm_from; reflexivity]. Qed.

Lemma ewm_from_bounds a lo hi prev xs :
  0 <= a -> a <= 1 -> lo <= prev <= hi ->
  Forall (fun x => lo <= x <= hi) xs ->
  Forall (fun y => lo <= y <= hi) (ewm_from a prev xs).
Proof.
  intros Ha0 Ha1 Hp Hxs. revert prev Hp.
  induction Hxs as [|x xs Hx _ IH]; intros prev Hp; simpl; constructor.
  - split; nra.
  - apply IH. split; nra.
Qed.

Lemma ema_alpha_range len :
  (1 <= len)%nat ->
  0 <= 2 / inject_Z (Z.of_nat len + 1) /\ 2 / inject_Z (Z.of_nat len + 1) <= 1.
Proof.
  intros Hl. split.
  - unfold Qdiv. apply Qmult_le_0_compat; [unfold Qle; simpl; lia|].
    apply Qinv_le_0_compat. unfold Qle; simpl; lia.
  - apply Qle_shift_div_r; [unfold Qlt; simpl; lia|].
    unfold Qle; simpl; lia.
Qed.

(** X21: every value of [ema(series, length)] lies between the smallest
    and the largest value of the series. *)
Theorem ema_within_range series len ys lo hi :
  Forall (fun x => lo <= x <= hi) series ->
  ema series len = Some ys ->
  Forall (fun y => lo <= y <= hi) ys.
Proof.
  intros Hs He. unfold ema in He.
  destruct (Nat.ltb len 1) eqn:E; [discriminate He|].
  injection He as <-. apply Nat.ltb_ge in E.
  destruct (ema_alpha_range len E) as [Ha0 Ha1].
  destruct series as [|x xs]; simpl; [constructor|].
  inversion Hs as [|? ? Hx Hxs]; subst.
  constructor; [exact Hx|]. apply ewm_from_bounds; assumption.
Qed.

Lemma ewm_from_const a c p k :
  p == c -> Forall (fun y => y == c) (ewm_from a p (repeat c k)).
Proof.
  revert p; induction k as [|k IH]; intros p Hp; simpl; constructor.
  - rewrite Hp. ring.
  - apply IH. rewrite Hp. ring.
Qed.

Lemma ewm_const a c k :
  Forall (fun y => y == c) (ewm_adjust_false a (repeat c k)).
Proof.
  destruct k; simpl; constructor; [apply Qeq_refl|].
  apply ewm_from_const, Qeq_refl.
Qed.

Lemma last_Forall {A} (P : A -> Prop) l y : Forall P l -> last l = Some y -> P y.
Proof.
  intros Hl Hy. apply last_Some in Hy as [l' ->].
  apply Forall_app in Hl as [_ Hl]. inversion Hl; assumption.
Qed.

Lemma last_length {A} (l : list A) : (1 <= length l)%nat -> exists y, last l = Some y.
Proof.
  intros Hl. destruct (last l) as [y|] eqn:E; [eauto|].
  apply last_None in E. subst. simpl in Hl. lia.
Qed.

Lemma Qltb_eq_false x y : x == y -> Qltb x y = false.
Proof.
  intros H. unfold Qltb. apply negb_false_iff, Qle_bool_iff. rewrite H. apply Qle_refl.
Qed.

Lemma ema_const c k len ys :
  ema (repeat c k) len = Some ys -> Forall (fun y => y == c) ys /\ length ys = k.
Proof.
  unfold ema. destruct (Nat.ltb len 1); [discriminate|]. intros H. injection H as <-.
  split; [apply ewm_const | rewrite length_ewm_adjust_false; apply repeat_length].
Qed.

Lemma last_repeat_Q (c : Q) k : last (repeat c (S k)) = Some c.
Proof.
  destruct (last_length (repeat c (S k))) as [y Hy]; [rewrite repeat_length; lia|].
  rewrite Hy. f_equal.
  apply (last_Forall (fun x => x = c) (repeat c (S k)) y); [|exact Hy].
  apply List.Forall_forall. intros x Hx. apply repeat_spec in Hx. exact Hx.
Qed.

(** X22: on a series of constant closes the trend check of
    [compute_tf15_confirm] and [compute_swing_confirm] is False: the
    EMAs equal the close, so close > ema20 fails. *)
Theorem flat_series_no_trend_confirm c k :
  trend_confirm (repeat c (S k)) = Some false.
Proof.
  unfold trend_confirm.
  destruct (ema (repeat c (S k)) 20) as [e20|] eqn:E20; [|discriminate E20].
  destruct (ema (repeat c (S k)) 50) as [e50|] eqn:E50; [|discriminate E50].
  apply ema_const in E20 as [F20 L20]. apply ema_const in E50 as [F50 L50].
  cbn [mbind option_bind]. rewrite last_repeat_Q. cbn [mbind option_bind].
  destruct (last_length e20) as [y20 Hy20]; [lia|]. rewrite Hy20.
  destruct (last_length e50) as [y50 Hy50]; [lia|]. rewrite Hy50.
  destruct (last_length (macd_hist (repeat c (S k)))) as [h Hh].
  { unfold macd_hist. rewrite !length_zip_with, !length_ewm_adjust_false,
      ?length_zip_with, ?length_ewm_adjust_false, repeat_length. lia. }
  rewrite Hh. cbn [mbind option_bind].
  rewrite (Qltb_eq_false y20 c (last_Forall _ _ _ F20 Hy20)). reflexivity.
Qed.

(** X23: [compute_btc_context] returns 0 when the BTC closes are
    constant, whatever the EMA lengths and the context weights. *)
Theorem flat_btc_context_zero fetch_klines parse_int_str tf_confirm
    ema_fast_len ema_slow_len ctx_cfg c k :
  fetch_klines "BTC_USDT"%string tf_confirm 50%nat = Some (repeat c (S k)) ->
  compute_btc_context fetch_klines parse_int_str tf_confirm ema_fast_len
    ema_slow_len ctx_cfg = 0%Z.
Proof.
  intros Hf. unfold compute_btc_context. rewrite Hf. cbn [mbind option_bind].
  destruct (ema (repeat c (S k)) ema_fast_len) as [ef|] eqn:Ef;
    cbn [mbind option_bind]; [|reflexivity].
  destruct (ema (repeat c (S k)) ema_slow_len) as [es|] eqn:Es;
    cbn [mbind option_bind]; [|reflexivity].
  apply ema_const in Ef as [Ff _]. apply ema_const in Es as [Fs _].
  rewrite last_repeat_Q. cbn [mbind option_bind].
  destruct (last ef) as [f|] eqn:Hf'; cbn [mbind option_bind]; [|reflexivity].
  destruct (last es) as [s|] eqn:Hs; cbn [mbind option_bind]; [|reflexivity].
  pose proof (last_Forall _ _ _ Ff Hf') as Hfc.
  rewrite (Qltb_eq_false f c Hfc).
  assert (Hcf : c == f) by (symmetry; exact Hfc).
  rewrite (Qltb_eq_false c f Hcf). reflexivity.
Qed.

(** X24: [compute_swing_confirm] is True exactly when, for every swing
    timeframe, the fetch succeeds and the trend check holds; with no
    swing timeframe configured it is True. *)
Theorem swing_confirm_all fetch_klines symbol swing_tfs :
  compute_swing_confirm fetch_klines symbol swing_tfs = true <->
  Forall (fun tf => exists cs, fetch_klines symbol tf 50%nat = Some cs /\
                               trend_confirm cs = Some true) swing_tfs.
Proof.
  unfold compute_swing_confirm.
  induction swing_tfs as [|tf rest IH]; simpl.
  - split; [constructor | reflexivity].
  - destruct (fetch_klines symbol tf 50%nat) as [cs|] eqn:Ef; cbn [mbind option_bind].
    + destruct (trend_confirm cs) as [[|]|] eqn:Et; cbn [mbind option_bind].
      * rewrite IH. split.
        -- intros H. constructor; [eauto | exact H].
        -- intros H. inversion H; assumption.
      * split; [discriminate|]. intros H. inversion H as [|? ? (cs' & Hc & Ht) _]; subst.
        rewrite Ef in Hc. injection Hc as <-. congruence.
      * split; [discriminate|]. intros H. inversion H as [|? ? (cs' & Hc & Ht) _]; subst.
        rewrite Ef in Hc. injection Hc as <-. congruence.
    + split; [discriminate|]. intros H. inversion H as [|? ? (cs' & Hc & Ht) _]; subst.
      congruence.
Qed.

(* ------------------------------------------------------------------ *)
(** ** Examples for the scoring, structure, level and indicator results *)

Lemma score_reads_flag_truthiness_witness :
  score_signal (mk_features {[ "ema_align" := PInt 5 ]} (Some 0%Z) None)
               config_bearish =
  score_signal (mk_features (<["ema_align" := PBool true]> {[ "side" := PStr "SELL" ]})
                            (Some 0%Z) None)
               config_bearish.
Proof.
  apply score_reads_flag_truthiness; [|reflexivity|reflexivity].
  repeat (apply List.Forall_cons; [reflexivity|]). apply List.Forall_nil.
Defined.

Lemma score_monotone_witness :
  (0 <= base_score (score_signal (mk_features ∅ None None) config_bearish) <=
        base_score (score_signal (mk_features {[ "macd_pos" := PBool true ]} None None)
                                 config_bearish))%Z /\
  (0 <= mtf_score (score_signal (mk_features ∅ None None) config_bearish) <=
        mtf_score (score_signal (mk_features {[ "macd_pos" := PBool true ]} None None)
                                config_bearish))%Z.
Proof.
  apply score_monotone.
  - intros w Hw. injection Hw as <-. apply (bool_decide_unpack _). vm_compute. reflexivity.
  - intros w Hw. discriminate Hw.
  - repeat (apply List.Forall_cons; [reflexivity|]). apply List.Forall_nil.
Defined.

Lemma structure_flags_consistent_witness :
  exists s, detect_structure candles_breakout (1#2) = Some s /\
    retest s && fall_from_resistance s = false /\
    (support_retest s = true -> bounce_from_support s = true).
Proof.
  eexists. split; [vm_compute; reflexivity|].
  apply (structure_flags_consistent candles_breakout (1#2)). vm_compute. reflexivity.
Defined.

Lemma support_le_resistance_witness :
  exists s, detect_structure candles_breakout (1#2) = Some s /\
    support s <= resistance s.
Proof.
  eexists. split; [vm_compute; reflexivity|].
  apply (support_le_resistance candles_breakout (1#2)).
  - repeat constructor; unfold Qle; simpl; lia.
  - vm_compute. reflexivity.
Defined.

Lemma breakout_bar_scoring_witness :
  exists st, detect_structure candles_breakout (1#2) = Some st /\
    let w := match cfg_weights config_bearish with Some w => w | None => ∅ end in
    base_score (score_signal (features_for_scoring true false true false false st 0)
                             config_bearish) =
      ((if true then wget w "ema_align" else 0) +
       (if false then wget w "macd" else 0) +
       (if true then wget w "vol_spike" else 0) + wget w "breakout")%Z /\
    In "BO"%string (feature_tags true false true false st) /\
    Forall (fun tg => ~ In tg (feature_tags true false true false st))
           ["RT"; "BSUP"; "SRT"; "FRES"]%string.
Proof.
  eexists. split; [vm_compute; reflexivity|].
  apply (breakout_bar_scoring candles_breakout (1#2));
    [vm_compute; reflexivity | reflexivity].
Defined.

Lemma atr_last_nonneg_witness : 0 <= atr_last candles_breakout 14.
Proof.
  apply atr_last_nonneg. repeat constructor; unfold Qle; simpl; lia.
Defined.

Lemma build_levels_ordered_witness :
  exists sl,
    lv_sl (build_levels "BUY" 100 2 default_tp_multipliers default_sl_multiplier) = Some sl /\
    length (lv_tps (build_levels "BUY" 100 2 default_tp_multipliers default_sl_multiplier)) =
      length default_tp_multipliers /\
    (if String.eqb "BUY" "BUY" then
       sl <= 100 /\ Forall (fun tp => 100 <= tp)
         (lv_tps (build_levels "BUY" 100 2 default_tp_multipliers default_sl_multiplier))
     else
       100 <= sl /\ Forall (fun tp => tp <= 100)
         (lv_tps (build_levels "BUY" 100 2 default_tp_multipliers default_sl_multiplier))).
Proof.
  apply (build_levels_ordered "BUY" 100 2 default_tp_multipliers default_sl_multiplier).
  - unfold Qle; simpl; lia.
  - unfold Qle; simpl; lia.
  - repeat constructor; unfold Qle; simpl; lia.
  - left; reflexivity.
Defined.

Lemma build_levels_ladder_order_witness :
  exists ti tj,
    lv_tps (build_levels "SELL" 100 2 default_tp_multipliers default_sl_multiplier)
      !! 0%nat = Some ti /\
    lv_tps (build_levels "SELL" 100 2 default_tp_multipliers default_sl_multiplier)
      !! 1%nat = Some tj /\
    (if String.eqb "SELL" "BUY" then ti < tj else tj < ti).
Proof.
  apply (build_levels_ladder_order "SELL" 100 2 default_tp_multipliers
           default_sl_multiplier 0 1 2 3).
  - unfold Qlt; simpl; lia.
  - right; reflexivity.
  - reflexivity.
  - reflexivity.
  - unfold Qlt; simpl; lia.
Defined.

Lemma ema_within_range_witness :
  exists ys, ema [1; 2; 3] 2 = Some ys /\ Forall (fun y => 1 <= y <= 3) ys.
Proof.
  eexists. split; [reflexivity|].
  apply (ema_within_range [1; 2; 3] 2 _ 1 3).
  - repeat constructor; unfold Qle; simpl; lia.
  - reflexivity.
Defined.

Lemma flat_btc_context_zero_witness :
  compute_btc_context (fun _ _ _ => Some (repeat 5 3)) (fun _ => None)
    "15m" 20 50 ∅ = 0%Z.
Proof.
  apply (flat_btc_context_zero (fun _ _ _ => Some (repeat 5 3)) (fun _ => None)
           "15m" 20 50 ∅ 5 2).
  reflexivity.
Defined.

(* ------------------------------------------------------------------ *)
(** ** Examples for the alert-file results *)


Lemma load_file_crlf_witness :
  load_alerts_file loads_empty_object
    (to_crlf (String.list_ascii_of_string "{}

 {} ")) =
  load_alerts_file loads_empty_object (String.list_ascii_of_string "{}

 {} ").
Proof.
  apply load_file_crlf.
  repeat (apply List.Forall_cons; [discriminate|]). apply List.Forall_nil.
Defined.
